(** * The PrometheusRule admission webhook (pkg/admission/admission.go)

    A shallow embedding of the admission-review handler: the failure-response
    builder, the two admission functions (validate and mutate) and the HTTP
    transport around them.  Go pointers are [option]s, a dereference of [nil]
    is a panic, and the [*Admission] receiver (two counters and a logger) is
    threaded through a small state-and-panic monad. *)

From Stdlib Require Import ZArith Ascii String.
From stdpp Require Import base option list strings gmap.

Local Open Scope string_scope.

(** ** Go values *)

(** Go's [error] interface: all the handler ever does with an error is to
    call [Error()] on it. *)
Record error : Type := mkError { Error : string }.

Global Instance error_eq_dec : EqDecision error.
Proof. solve_decision. Defined.

(** [[]byte] and [string] are both sequences of bytes. *)
Abbreviation bytes := string.

(** The double quote.  Go literals that contain it are written below with an
    apostrophe in its place and passed through [lit], which puts the quotes
    back; none of the literals of admission.go contains an apostrophe. *)
Definition dquote : ascii := Ascii.ascii_of_nat 34.

Fixpoint lit (s : string) : string :=
  match s with
  | EmptyString => EmptyString
  | String c rest =>
      String (if Ascii.eqb c "'"%char then dquote else c) (lit rest)
  end.

(** [strings.Join(elems, sep)] *)
Fixpoint Join (elems : list string) (sep : string) : string :=
  match elems with
  | [] => ""
  | [e] => e
  | e :: rest => e ++ sep ++ Join rest sep
  end.

(** ** JSON texts

    The grammar of RFC 8259 over bytes, as the scanner of encoding/json
    accepts it, as a relation between a text and the value it denotes.  A
    string keeps the bytes between its quotes and a number its literal. *)

Module Json.

#[local] Set Warnings "-register-all".

Inductive value : Type :=
| Null
| Bool (b : bool)
| Number (literal : string)
| Str (body : string)
| Array (items : list value)
| Object (fields : list (string * value)).

Definition code (c : ascii) : nat := Ascii.nat_of_ascii c.

Definition is_ws (c : ascii) : bool :=
  Nat.eqb (code c) 32 || Nat.eqb (code c) 9 || Nat.eqb (code c) 10
  || Nat.eqb (code c) 13.

Definition is_digit (c : ascii) : bool := Nat.leb 48 (code c) && Nat.leb (code c) 57.

Definition is_hex (c : ascii) : bool :=
  is_digit c || (Nat.leb 97 (code c) && Nat.leb (code c) 102)
  || (Nat.leb 65 (code c) && Nat.leb (code c) 70).

(** the byte after a backslash, [u] apart: a quote, a backslash, a slash or
    one of [b f n r t] *)
Definition is_escape (c : ascii) : bool :=
  existsb (Nat.eqb (code c)) [34; 92; 47; 98; 102; 110; 114; 116].

Definition unescaped (c : ascii) : bool :=
  Nat.leb 32 (code c) && negb (Nat.eqb (code c) 34)
  && negb (Nat.eqb (code c) 92).

Fixpoint ws (s : string) : bool :=
  match s with
  | EmptyString => true
  | String c rest => is_ws c && ws rest
  end.

(** the bytes between the quotes of a string *)
Fixpoint chars (s : string) : bool :=
  match s with
  | EmptyString => true
  | String c rest =>
      if Nat.eqb (code c) 92 then
        match rest with
        | EmptyString => false
        | String e rest' =>
            if Nat.eqb (code e) 117 then
              match rest' with
              | String h1 (String h2 (String h3 (String h4 rest''))) =>
                  is_hex h1 && is_hex h2 && is_hex h3 && is_hex h4
                  && chars rest''
              | _ => false
              end
            else is_escape e && chars rest'
        end
      else unescaped c && chars rest
  end.

Fixpoint skip_digits (s : string) : string :=
  match s with
  | EmptyString => EmptyString
  | String c rest => if is_digit c then skip_digits rest else s
  end.

Definition starts_with_digit (s : string) : bool :=
  match s with
  | String c _ => is_digit c
  | EmptyString => false
  end.

Definition is_empty (s : string) : bool :=
  match s with EmptyString => true | _ => false end.

(** [ [eE] [+-]? digits ]? *)
Definition exponent (s : string) : bool :=
  match s with
  | EmptyString => true
  | String c rest =>
      (Nat.eqb (code c) 101 || Nat.eqb (code c) 69)
      && let digits :=
           match rest with
           | String sign rest' =>
               if Nat.eqb (code sign) 43 || Nat.eqb (code sign) 45 then rest' else rest
           | EmptyString => rest
           end in
         starts_with_digit digits && is_empty (skip_digits digits)
  end.

(** [ . digits ]? exponent *)
Definition fraction (s : string) : bool :=
  match s with
  | String c rest =>
      if Nat.eqb (code c) 46
      then starts_with_digit rest && exponent (skip_digits rest)
      else exponent s
  | EmptyString => true
  end.

(** [-]? (0 | [1-9] digits) fraction *)
Definition number (s : string) : bool :=
  let unsigned :=
    match s with
    | String c rest => if Nat.eqb (code c) 45 then rest else s
    | EmptyString => s
    end in
  match unsigned with
  | String c rest =>
      if Nat.eqb (code c) 48 then fraction rest
      else is_digit c && fraction (skip_digits rest)
  | EmptyString => false
  end.

Definition quote (s : string) : string :=
  String dquote s ++ String dquote "".

Inductive parses : string -> value -> Prop :=
| parses_null : parses "null" Null
| parses_true : parses "true" (Bool true)
| parses_false : parses "false" (Bool false)
| parses_number s : number s = true -> parses s (Number s)
| parses_string s : chars s = true -> parses (quote s) (Str s)
| parses_array_empty w : ws w = true -> parses ("[" ++ w ++ "]") (Array [])
| parses_array s vs : elements s vs -> parses ("[" ++ s ++ "]") (Array vs)
| parses_object_empty w : ws w = true -> parses ("{" ++ w ++ "}") (Object [])
| parses_object s ms : members s ms -> parses ("{" ++ s ++ "}") (Object ms)
with element : string -> value -> Prop :=
| element_intro a s b v :
    ws a = true -> ws b = true -> parses s v -> element (a ++ s ++ b) v
with elements : string -> list value -> Prop :=
| elements_one s v : element s v -> elements s [v]
| elements_cons s v r vs :
    element s v -> elements r vs -> elements (s ++ "," ++ r) (v :: vs)
with members : string -> list (string * value) -> Prop :=
| members_one s m : member s m -> members s [m]
| members_cons s m r ms :
    member s m -> members r ms -> members (s ++ "," ++ r) (m :: ms)
with member : string -> string * value -> Prop :=
| member_intro a k b s v :
    ws a = true -> ws b = true -> chars k = true -> element s v ->
    member (a ++ quote k ++ b ++ ":" ++ s) (k, v).

(** A text is valid JSON when it denotes some value, and represents an array
    when that value is one. *)
Definition valid (s : string) : Prop := exists v, element s v.
Definition valid_array (s : string) : Prop := exists vs, element s (Array vs).

(** [obj.key] of an object, [None] elsewhere *)
Definition field (key : string) (v : value) : option value :=
  match v with
  | Object fields => snd <$> List.find (fun kv => String.eqb (fst kv) key) fields
  | _ => None
  end.

End Json.

(** The operations the two annotation patches denote. *)
Definition firstAnnotationOp : Json.value :=
  Json.Object
    [("op", Json.Str "add");
     ("path", Json.Str "/metadata/annotations");
     ("value", Json.Object [("prometheus-operator-validated", Json.Str "true")])].

Definition additionalAnnotationOp : Json.value :=
  Json.Object
    [("op", Json.Str "add");
     ("path", Json.Str "/metadata/annotations/prometheus-operator-validated");
     ("value", Json.Str "true")].

(** ** k8s.io/apimachinery/pkg/apis/meta/v1 and k8s.io/api/admission/v1

    Only the fields that admission.go reads or writes are kept; every other
    field stays at its zero value throughout and is left out. *)

Module GroupVersionResource.
Record t : Type := mk { Group : string; Version : string; Resource : string }.
Global Instance eq_dec : EqDecision t.
Proof. solve_decision. Defined.
End GroupVersionResource.

Module StatusCause.
Record t : Type := mk { Message : string }.
End StatusCause.

Module StatusDetails.
Record t : Type := mk { Name : string; Causes : list StatusCause.t }.
End StatusDetails.

Module Status.
Record t : Type := mk {
  Status : string;
  Message : string;
  Reason : string;
  Details : option StatusDetails.t;
  Code : Z
}.
End Status.

Definition StatusFailure : string := "Failure".
Definition StatusReasonInvalid : string := "Invalid".
Definition PatchTypeJSONPatch : string := "JSONPatch".

(** net/http status codes *)
Definition StatusOK : Z := 200.
Definition StatusBadRequest : Z := 400.
Definition StatusUnsupportedMediaType : Z := 415.
Definition StatusUnprocessableEntity : Z := 422.
Definition StatusInternalServerError : Z := 500.

Module RawExtension.
Record t : Type := mk { Raw : bytes }.
End RawExtension.

Module AdmissionRequest.
Record t : Type := mk {
  UID : string;
  Resource : GroupVersionResource.t;
  Object : RawExtension.t
}.
End AdmissionRequest.

Module AdmissionResponse.
Record t : Type := mk {
  UID : string;
  Allowed : bool;
  Result : option Status.t;
  Patch : option bytes;
  PatchType : option string
}.

(** [&v1.AdmissionResponse{Allowed: allowed}] *)
Definition new (allowed : bool) : t :=
  {| UID := ""; Allowed := allowed; Result := None; Patch := None;
     PatchType := None |}.

Definition set_UID (uid : string) (r : t) : t :=
  {| UID := uid; Allowed := Allowed r; Result := Result r;
     Patch := Patch r; PatchType := PatchType r |}.

Definition set_Patch (pt : string) (p : bytes) (r : t) : t :=
  {| UID := UID r; Allowed := Allowed r; Result := Result r;
     Patch := Some p; PatchType := Some pt |}.
End AdmissionResponse.

Module AdmissionReview.
Record t : Type := mk {
  Kind : string;
  APIVersion : string;
  Request : option AdmissionRequest.t;
  Response : option AdmissionResponse.t
}.

(** [v1.AdmissionReview{}] *)
Definition zero : t :=
  {| Kind := ""; APIVersion := ""; Request := None; Response := None |}.
End AdmissionReview.

(** ** Package constants and variables *)

Definition addFirstAnnotationPatch : string :=
  lit "{ 'op': 'add', 'path': '/metadata/annotations', 'value': {'prometheus-operator-validated': 'true'}}".
Definition addAdditionalAnnotationPatch : string :=
  lit "{ 'op': 'add', 'path': '/metadata/annotations/prometheus-operator-validated', 'value': 'true' }".
Definition errUnmarshalAdmission : string := "Cannot unmarshal admission request".
Definition errUnmarshalRules : string := "Cannot unmarshal rules from spec".

Definition ruleResource : GroupVersionResource.t :=
  {| GroupVersionResource.Group := "monitoring.coreos.com";
     GroupVersionResource.Version := "v1";
     GroupVersionResource.Resource := "prometheusrules" |}.

(** ** The failure-response builder *)

(** One turn of the loop over [errors]: the details get their name and one
    more cause. *)
Definition addCause (d : StatusDetails.t) (err : error) : StatusDetails.t :=
  {| StatusDetails.Name := "prometheusrules";
     StatusDetails.Causes :=
       StatusDetails.Causes d ++ [ {| StatusCause.Message := Error err |} ] |}.

Definition toAdmissionResponseFailure (message : string) (errors : list error)
  : AdmissionResponse.t :=
  let details :=
    fold_left addCause errors
      {| StatusDetails.Name := ""; StatusDetails.Causes := [] |} in
  {| AdmissionResponse.UID := "";
     AdmissionResponse.Allowed := false;
     AdmissionResponse.Result := Some
       {| Status.Status := StatusFailure;
          Status.Message := message;
          Status.Reason := StatusReasonInvalid;
          Status.Details := Some details;
          Status.Code := StatusUnprocessableEntity |};
     AdmissionResponse.Patch := None;
     AdmissionResponse.PatchType := None |}.

(** The causes of a response, in order ([nil] when there is no result). *)
Definition causesOf (r : AdmissionResponse.t) : list StatusCause.t :=
  match AdmissionResponse.Result r with
  | Some st =>
      match Status.Details st with
      | Some d => StatusDetails.Causes d
      | None => []
      end
  | None => []
  end.

(** ** The receiver and the effects of the handler *)

(** A [prometheus.Counter], seen through the number of [Inc()] it received. *)
Abbreviation Counter := nat.

(** go-kit levels and the key/value pairs of one [Log] call. *)
Inductive Level : Type := DebugLevel | InfoLevel | WarnLevel | ErrorLevel.

Record LogEntry : Type := mkLogEntry {
  level : Level;
  keyvals : list (string * string)
}.

(** A [log.Logger], seen through the entries it was given, oldest first. *)
Abbreviation Logger := (list LogEntry).

Module Admission.
(** A counter is [None] until [RegisterMetrics] has set it; the logger is the
    one [New] was given and is never nil. *)
Record t : Type := mk {
  validationErrorsCounter : option Counter;
  validationTriggeredCounter : option Counter;
  logger : Logger
}.
End Admission.

Definition New (logger : Logger) : Admission.t :=
  {| Admission.validationErrorsCounter := None;
     Admission.validationTriggeredCounter := None;
     Admission.logger := logger |}.

Definition RegisterMetrics
    (validationTriggeredCounter validationErrorsCounter : option Counter)
    (a : Admission.t) : Admission.t :=
  {| Admission.validationErrorsCounter := validationErrorsCounter;
     Admission.validationTriggeredCounter := validationTriggeredCounter;
     Admission.logger := Admission.logger a |}.

(** A method of [*Admission] either returns a value and leaves the receiver
    in a new state, or panics. *)
Inductive outcome (A : Type) : Type :=
| Returns (a : A) (st : Admission.t)
| Panics (reason : string).
Arguments Returns {A} a st.
Arguments Panics {A} reason.

Definition M (A : Type) : Type := Admission.t -> outcome A.

Global Instance M_ret : MRet M := fun A a st => Returns a st.

Global Instance M_bind : MBind M := fun A B f m st =>
  match m st with
  | Returns a st' => f a st'
  | Panics reason => Panics reason
  end.

(** The runtime error of a selector or method call through [nil]. *)
Definition nilDereference : string :=
  "runtime error: invalid memory address or nil pointer dereference".

Definition panic {A : Type} (reason : string) : M A := fun _ => Panics reason.

(** [level.X(a.logger).Log(keyvals...)] *)
Definition Log (lvl : Level) (kvs : list (string * string)) : M unit :=
  fun a =>
    Returns tt
      {| Admission.validationErrorsCounter := Admission.validationErrorsCounter a;
         Admission.validationTriggeredCounter := Admission.validationTriggeredCounter a;
         Admission.logger :=
           Admission.logger a ++ [ {| level := lvl; keyvals := kvs |} ] |}.

(** [a.validationTriggeredCounter.Inc()]: a method call on an interface value,
    which panics when the counter was never registered. *)
Definition validationTriggeredCounter_Inc : M unit :=
  fun a =>
    match Admission.validationTriggeredCounter a with
    | None => Panics nilDereference
    | Some n =>
        Returns tt
          {| Admission.validationErrorsCounter := Admission.validationErrorsCounter a;
             Admission.validationTriggeredCounter := Some (S n);
             Admission.logger := Admission.logger a |}
    end.

(** [a.validationErrorsCounter.Inc()] *)
Definition validationErrorsCounter_Inc : M unit :=
  fun a =>
    match Admission.validationErrorsCounter a with
    | None => Panics nilDereference
    | Some n =>
        Returns tt
          {| Admission.validationErrorsCounter := Some (S n);
             Admission.validationTriggeredCounter := Admission.validationTriggeredCounter a;
             Admission.logger := Admission.logger a |}
    end.

(** ** net/http *)

Module Request.
(** [Body] is [None] for a nil [r.Body], and otherwise what [ioutil.ReadAll]
    returns on it; [Header] maps canonical header names to their values. *)
Record t : Type := mk {
  Body : option (bytes * option error);
  Header : gmap string (list string)
}.
End Request.

(** [Header.Get(key)]: the first value of the header, or the empty string. *)
Definition Header_Get (h : gmap string (list string)) (key : string) : string :=
  match h !! key with
  | Some (v :: _) => v
  | _ => ""
  end.

Module ResponseWriter.
(** What the client gets: the status line once it is written, the body bytes
    so far, and the error [Write] returns on this connection (if any). *)
Record t : Type := mk {
  status : option Z;
  written : bytes;
  failure : option error
}.

Definition WriteHeader (code : Z) (w : t) : t :=
  match status w with
  | Some _ => w
  | None => {| status := Some code; written := written w; failure := failure w |}
  end.

Definition Write (data : bytes) (w : t) : t * option error :=
  let w := WriteHeader StatusOK w in
  match failure w with
  | Some err => (w, Some err)
  | None =>
      ({| status := status w; written := written w ++ data; failure := None |},
       None)
  end.

Definition fresh : t := {| status := None; written := ""; failure := None |}.
End ResponseWriter.

(** [http.Error(w, error, code)] *)
Definition http_Error (w : ResponseWriter.t) (msg : string) (code : Z)
  : ResponseWriter.t :=
  let w := ResponseWriter.WriteHeader code w in
  fst (ResponseWriter.Write (msg ++ String (Ascii.ascii_of_nat 10) "") w).

(** ** The resource under admission *)

Module PrometheusRules.
(** Modelled from the spec: the struct [PrometheusRules] of package admission
    is declared outside admission.go; it is a lightweight structure exposing
    only the annotations and the still-raw specification bytes. *)
Record t : Type := mk {
  Annotations : gmap string string;
  Spec : RawExtension.t
}.
End PrometheusRules.

Module PrometheusRule.
(** [monitoringv1.PrometheusRule], of which the handler reads [Spec] only. *)
Record t (RuleSpec : Type) : Type := mk { Spec : RuleSpec }.
Arguments mk {RuleSpec} Spec.
Arguments Spec {RuleSpec} _.
End PrometheusRule.

(** ** Collaborators

    What admission.go calls and does not define: the codecs, the semantic
    validator, the patch generator and [fmt]'s rendering of two struct
    types. *)
Class Collaborators : Type := {
  (** [monitoringv1.PrometheusRuleSpec] *)
  PrometheusRuleSpec : Type;
  (** [deserializer.Decode(body, nil, &into)]: the state of [into] after the
      call, and the error. *)
  Decode : bytes -> AdmissionReview.t -> AdmissionReview.t * option error;
  (** [json.Marshal(review)] *)
  Marshal : AdmissionReview.t -> bytes * option error;
  (** [json.Unmarshal(raw, &PrometheusRules{})] *)
  UnmarshalPrometheusRules : bytes -> error + PrometheusRules.t;
  (** [json.Unmarshal(raw, &monitoringv1.PrometheusRule{})] *)
  UnmarshalPrometheusRule : bytes -> error + PrometheusRule.t PrometheusRuleSpec;
  (** [promoperator.ValidateRule(spec)] *)
  ValidateRule : PrometheusRuleSpec -> list error;
  (** [generatePatchesForNonStringLabelsAnnotations(raw)] of package
      admission, declared outside admission.go: the patches and the error.
      By its contract the patches are already-serialized JSON-Patch
      operations, each a complete JSON object as text; the properties that
      need this take it as a hypothesis. *)
  generatePatchesForNonStringLabelsAnnotations :
    bytes -> list string * option error;
  (** [%v] of a [metav1.GroupVersionResource] *)
  fmtGroupVersionResource : GroupVersionResource.t -> string;
  (** what the logger prints for a [monitoringv1.PrometheusRuleSpec] *)
  fmtPrometheusRuleSpec : PrometheusRuleSpec -> string
}.

(** ** The handler *)

Section Handler.
Context {deps : Collaborators}.

(** [type admitFunc func(ar v1.AdmissionReview) *v1.AdmissionResponse] *)
Definition admitFunc : Type := AdmissionReview.t -> M (option AdmissionResponse.t).

(** [fmt.Errorf("expected resource to be %v, but received %v", ruleResource,
    received)] *)
Definition errUnexpectedResource (received : GroupVersionResource.t) : error :=
  mkError ("expected resource to be " ++ fmtGroupVersionResource ruleResource
           ++ ", but received " ++ fmtGroupVersionResource received).

Definition mutatePrometheusRules : admitFunc := fun ar =>
  Log DebugLevel [("msg", "Mutating prometheusrules")] ;;
  match AdmissionReview.Request ar with
  | None => panic nilDereference
  | Some request =>
      if decide (AdmissionRequest.Resource request ≠ ruleResource) then
        let err := errUnexpectedResource (AdmissionRequest.Resource request) in
        Log WarnLevel [("err", Error err)] ;;
        mret (Some (toAdmissionResponseFailure "Unexpected resource kind" [err]))
      else
        match UnmarshalPrometheusRules
                (RawExtension.Raw (AdmissionRequest.Object request)) with
        | inl err =>
            Log InfoLevel [("msg", errUnmarshalAdmission); ("err", Error err)] ;;
            mret (Some (toAdmissionResponseFailure errUnmarshalAdmission [err]))
        | inr rule =>
            let '(patches, err) :=
              generatePatchesForNonStringLabelsAnnotations
                (RawExtension.Raw (PrometheusRules.Spec rule)) in
            match err with
            | Some err =>
                Log InfoLevel [("msg", errUnmarshalRules); ("err", Error err)] ;;
                mret (Some (toAdmissionResponseFailure errUnmarshalRules [err]))
            | None =>
                let reviewResponse := AdmissionResponse.new true in
                let patches :=
                  if decide (size (PrometheusRules.Annotations rule) = 0)
                  then (patches ++ [addFirstAnnotationPatch])%list
                  else (patches ++ [addAdditionalAnnotationPatch])%list in
                let pt := PatchTypeJSONPatch in
                mret (Some (AdmissionResponse.set_Patch pt
                              ("[" ++ Join patches "," ++ "]") reviewResponse))
            end
        end
  end.

(** The loop [for _, err := range errors] that logs each validation error. *)
Fixpoint logInvalidRule (errors : list error) : M unit :=
  match errors with
  | [] => mret tt
  | err :: rest =>
      Log InfoLevel [("msg", "Invalid rule"); ("err", Error err)] ;;
      logInvalidRule rest
  end.

Definition validatePrometheusRules : admitFunc := fun ar =>
  validationTriggeredCounter_Inc ;;
  Log DebugLevel [("msg", "Validating prometheusrules")] ;;
  match AdmissionReview.Request ar with
  | None => panic nilDereference
  | Some request =>
      if decide (AdmissionRequest.Resource request ≠ ruleResource) then
        let err := errUnexpectedResource (AdmissionRequest.Resource request) in
        Log WarnLevel [("err", Error err)] ;;
        validationErrorsCounter_Inc ;;
        mret (Some (toAdmissionResponseFailure "Unexpected resource kind" [err]))
      else
        match UnmarshalPrometheusRule
                (RawExtension.Raw (AdmissionRequest.Object request)) with
        | inl err =>
            Log InfoLevel [("msg", errUnmarshalRules); ("err", Error err)] ;;
            validationErrorsCounter_Inc ;;
            mret (Some (toAdmissionResponseFailure errUnmarshalRules [err]))
        | inr promRule =>
            let errors := ValidateRule (PrometheusRule.Spec promRule) in
            if decide (length errors ≠ 0) then
              let m := "Invalid rule" in
              Log DebugLevel
                [("msg", m);
                 ("content", fmtPrometheusRuleSpec (PrometheusRule.Spec promRule))] ;;
              logInvalidRule errors ;;
              validationErrorsCounter_Inc ;;
              mret (Some (toAdmissionResponseFailure "Rules are not valid" errors))
            else
              mret (Some (AdmissionResponse.new true))
        end
  end.

Definition serveAdmission (w : ResponseWriter.t) (r : Request.t)
    (admitFn : admitFunc) : M ResponseWriter.t :=
  let body : bytes :=
    match Request.Body r with
    | Some (data, None) => data
    | _ => ""
    end in
  if decide (String.length body = 0) then
    Log WarnLevel [("msg", "request has no body")] ;;
    mret (http_Error w "request has no body" StatusBadRequest)
  else
    let contentType := Header_Get (Request.Header r) "Content-Type" in
    if decide (contentType ≠ "application/json") then
      Log WarnLevel
        [("msg", "invalid Content-Type " ++ contentType
                 ++ ", want `application/json`")] ;;
      mret (http_Error w "invalid Content-Type, want `application/json`"
              StatusUnsupportedMediaType)
    else
      Log DebugLevel [("msg", "Received request"); ("content", body)] ;;
      let '(requestedAdmissionReview, err) := Decode body AdmissionReview.zero in
      response ←
        match err with
        | Some err =>
            Log WarnLevel
              [("msg", "Unable to deserialize request"); ("err", Error err)] ;;
            mret (Some (toAdmissionResponseFailure
                          "Unable to deserialize request" [err]))
        | None => admitFn requestedAdmissionReview
        end;
      (* responseAdmissionReview.Response.UID = requestedAdmissionReview.Request.UID *)
      match response, AdmissionReview.Request requestedAdmissionReview with
      | Some response, Some request =>
          let responseAdmissionReview :=
            {| AdmissionReview.Kind :=
                 AdmissionReview.Kind requestedAdmissionReview;
               AdmissionReview.APIVersion :=
                 AdmissionReview.APIVersion requestedAdmissionReview;
               AdmissionReview.Request := None;
               AdmissionReview.Response :=
                 Some (AdmissionResponse.set_UID
                         (AdmissionRequest.UID request) response) |} in
          let '(respBytes, err) := Marshal responseAdmissionReview in
          Log DebugLevel [("msg", "sending response"); ("content", respBytes)] ;;
          w ← match err with
              | Some err =>
                  Log ErrorLevel
                    [("msg", "Cannot serialize response"); ("err", Error err)] ;;
                  mret (http_Error w
                          ("could not serialize response: " ++ Error err)
                          StatusInternalServerError)
              | None => mret w
              end;
          let '(w, err) := ResponseWriter.Write respBytes w in
          match err with
          | Some err =>
              Log ErrorLevel
                [("msg", "Cannot write response"); ("err", Error err)] ;;
              mret (http_Error w ("could not write response: " ++ Error err)
                      StatusInternalServerError)
          | None => mret w
          end
      | _, _ => panic nilDereference
      end.

Definition servePrometheusRulesMutate (w : ResponseWriter.t) (r : Request.t)
  : M ResponseWriter.t :=
  serveAdmission w r mutatePrometheusRules.

Definition servePrometheusRulesValidate (w : ResponseWriter.t) (r : Request.t)
  : M ResponseWriter.t :=
  serveAdmission w r validatePrometheusRules.

(** The decision of the validate function as its design states it: a
    kind mismatch is rejected with one cause, an object that does not
    unmarshal with the unmarshalling error, a rule with semantic errors with
    all of them in order, and anything else is allowed. *)
Definition validateDecision (request : AdmissionRequest.t) : AdmissionResponse.t :=
  if decide (AdmissionRequest.Resource request = ruleResource) then
    match UnmarshalPrometheusRule
            (RawExtension.Raw (AdmissionRequest.Object request)) with
    | inl err => toAdmissionResponseFailure errUnmarshalRules [err]
    | inr promRule =>
        match ValidateRule (PrometheusRule.Spec promRule) with
        | [] => AdmissionResponse.new true
        | errors => toAdmissionResponseFailure "Rules are not valid" errors
        end
    end
  else
    toAdmissionResponseFailure "Unexpected resource kind"
      [errUnexpectedResource (AdmissionRequest.Resource request)].

(** An admission function that tells apart, by the panic it raises, a call
    without a request from any later failure. *)
Definition requireRequest : admitFunc := fun ar =>
  match AdmissionReview.Request ar with
  | None => panic "admit invoked without a request"
  | Some _ => mret (Some (AdmissionResponse.new true))
  end.

(** The response of [mutatePrometheusRules] as a function of the request:
    what is left of the function once its log calls are taken out. *)
Definition mutateDecision (request : AdmissionRequest.t) : AdmissionResponse.t :=
  if decide (AdmissionRequest.Resource request = ruleResource) then
    match UnmarshalPrometheusRules
            (RawExtension.Raw (AdmissionRequest.Object request)) with
    | inl err => toAdmissionResponseFailure errUnmarshalAdmission [err]
    | inr rule =>
        match generatePatchesForNonStringLabelsAnnotations
                (RawExtension.Raw (PrometheusRules.Spec rule)) with
        | (_, Some err) => toAdmissionResponseFailure errUnmarshalRules [err]
        | (patches, None) =>
            let patches :=
              if decide (size (PrometheusRules.Annotations rule) = 0)
              then (patches ++ [addFirstAnnotationPatch])%list
              else (patches ++ [addAdditionalAnnotationPatch])%list in
            AdmissionResponse.set_Patch PatchTypeJSONPatch
              ("[" ++ Join patches "," ++ "]") (AdmissionResponse.new true)
        end
    end
  else
    toAdmissionResponseFailure "Unexpected resource kind"
      [errUnexpectedResource (AdmissionRequest.Resource request)].

End Handler.

(** ** Vocabulary of the properties *)

(** The receiver after more log entries. *)
Definition logged (a : Admission.t) (entries : list LogEntry) : Admission.t :=
  Admission.mk (Admission.validationErrorsCounter a)
    (Admission.validationTriggeredCounter a) (Admission.logger a ++ entries).

(** The envelope that is serialized: kind and version of the request
    envelope, and the response under the UID of the request. *)
Definition echo (requested : AdmissionReview.t) (request : AdmissionRequest.t)
    (response : AdmissionResponse.t) : AdmissionReview.t :=
  {| AdmissionReview.Kind := AdmissionReview.Kind requested;
     AdmissionReview.APIVersion := AdmissionReview.APIVersion requested;
     AdmissionReview.Request := None;
     AdmissionReview.Response :=
       Some (AdmissionResponse.set_UID (AdmissionRequest.UID request) response) |}.

Definition received (body : bytes) : LogEntry :=
  {| level := DebugLevel;
     keyvals := [("msg", "Received request"); ("content", body)] |}.

(** The two shapes a response of an admission function has: an allowance
    without a result, or a rejection with status Failure, reason Invalid,
    code 422, at least one cause and no patch. *)
Definition wellFormed (resp : AdmissionResponse.t) : Prop :=
  if AdmissionResponse.Allowed resp then AdmissionResponse.Result resp = None
  else
    AdmissionResponse.Patch resp = None
    /\ AdmissionResponse.PatchType resp = None
    /\ causesOf resp <> []
    /\ exists st,
         AdmissionResponse.Result resp = Some st
         /\ Status.Status st = StatusFailure
         /\ Status.Reason st = StatusReasonInvalid
         /\ Status.Code st = StatusUnprocessableEntity.

(** An operation on the annotations of the object itself: one whose path is
    /metadata/annotations or lies under it. *)
Definition isAnnotationsOp (v : Json.value) : bool :=
  match Json.field "path" v with
  | Some (Json.Str path) => String.prefix "/metadata/annotations" path
  | _ => false
  end.

(** The bytes a JSON value can begin with: a digit, a minus sign, the first
    letter of null, true or false, a quote, a bracket or a brace. *)
Definition startsValue (c : ascii) : bool :=
  Json.is_digit c
  || existsb (Nat.eqb (Json.code c)) [110; 116; 102; 45; 34; 91; 123].

(** Both counters registered, as [RegisterMetrics] leaves them when it is
    given two counters. *)
Definition registered (a : Admission.t) : Prop :=
  is_Some (Admission.validationTriggeredCounter a)
  /\ is_Some (Admission.validationErrorsCounter a).

(** ** A small deployment

    Concrete collaborators, requests and objects on which the handler can be
    run: a decoder that knows three bodies, two objects for each admission
    function, a validator that reports every rule without an expression. *)

Module Sample.

(** A rule specification: the name and the expression of each rule. *)
Definition RuleSpec : Type := list (string * string).

Definition okUID : string := "705ab4f5-6393-11e8-b7cc-42010a800002".

Definition request (resource : GroupVersionResource.t) (object : bytes)
  : AdmissionRequest.t :=
  {| AdmissionRequest.UID := okUID;
     AdmissionRequest.Resource := resource;
     AdmissionRequest.Object := {| RawExtension.Raw := object |} |}.

Definition review (request : option AdmissionRequest.t) : AdmissionReview.t :=
  {| AdmissionReview.Kind := "AdmissionReview";
     AdmissionReview.APIVersion := "admission.k8s.io/v1";
     AdmissionReview.Request := request;
     AdmissionReview.Response := None |}.

Definition alertmanagers : GroupVersionResource.t :=
  {| GroupVersionResource.Group := "monitoring.coreos.com";
     GroupVersionResource.Version := "v1";
     GroupVersionResource.Resource := "alertmanagers" |}.

(** Three bodies: not JSON at all, an envelope without a request, and a
    complete envelope. *)
Definition garbageBody : bytes := "garbage".
Definition noRequestBody : bytes :=
  lit "{'apiVersion':'admission.k8s.io/v1','kind':'AdmissionReview'}".
Definition fullBody : bytes :=
  lit "{'apiVersion':'admission.k8s.io/v1','kind':'AdmissionReview','request':{}}".

(** On a body it cannot decode the decoder leaves [into] as it found it. *)
Definition decode (body : bytes) (into : AdmissionReview.t)
  : AdmissionReview.t * option error :=
  if String.eqb body noRequestBody then (review None, None)
  else if String.eqb body fullBody
  then (review (Some (request ruleResource "plain")), None)
  else (into, Some (mkError "couldn't get version/kind; json parse error")).

Definition marshal (r : AdmissionReview.t) : bytes * option error :=
  let response :=
    match AdmissionReview.Response r with
    | Some resp =>
        lit ",'response':{'uid':'" ++ AdmissionResponse.UID resp
        ++ lit "','allowed':"
        ++ (if AdmissionResponse.Allowed resp then "true" else "false") ++ "}"
    | None => ""
    end in
  (lit "{'kind':'" ++ AdmissionReview.Kind r ++ lit "','apiVersion':'"
   ++ AdmissionReview.APIVersion r ++ lit "'" ++ response ++ "}", None).

Definition unmarshalRules (raw : bytes) : error + PrometheusRules.t :=
  if String.eqb raw "plain" then
    inr {| PrometheusRules.Annotations := ∅;
           PrometheusRules.Spec := {| RawExtension.Raw := "groups" |} |}
  else if String.eqb raw "annotated" then
    inr {| PrometheusRules.Annotations := {[ "team" := "infra" ]};
           PrometheusRules.Spec := {| RawExtension.Raw := "groups" |} |}
  else inl (mkError "unexpected end of JSON input").

Definition unmarshalRule (raw : bytes) : error + PrometheusRule.t RuleSpec :=
  if String.eqb raw "plain" then inr (PrometheusRule.mk [("up", "up == 1")])
  else if String.eqb raw "broken" then
    inr (PrometheusRule.mk [("first", ""); ("up", "up == 1"); ("last", "")])
  else inl (mkError "unexpected end of JSON input").

Fixpoint validateRule (spec : RuleSpec) : list error :=
  match spec with
  | [] => []
  | (name, expr) :: rest =>
      if String.eqb expr ""
      then mkError ("rule " ++ name ++ " has no expression") :: validateRule rest
      else validateRule rest
  end.

Definition labelPatch : string :=
  lit "{'op': 'replace', 'path': '/spec/groups/0/rules/0/labels/severity', 'value': '1'}".

Definition labelOp : Json.value :=
  Json.Object
    [("op", Json.Str "replace");
     ("path", Json.Str "/spec/groups/0/rules/0/labels/severity");
     ("value", Json.Str "1")].

Definition generatePatches (raw : bytes) : list string * option error :=
  if String.eqb raw "groups" then ([labelPatch], None)
  else ([], Some (mkError "yaml: unmarshal errors")).

Definition fmtResource (r : GroupVersionResource.t) : string :=
  "{" ++ GroupVersionResource.Group r ++ " " ++ GroupVersionResource.Version r
  ++ " " ++ GroupVersionResource.Resource r ++ "}".

Definition collaborators : Collaborators :=
  {| PrometheusRuleSpec := RuleSpec;
     Decode := decode;
     Marshal := marshal;
     UnmarshalPrometheusRules := unmarshalRules;
     UnmarshalPrometheusRule := unmarshalRule;
     ValidateRule := validateRule;
     generatePatchesForNonStringLabelsAnnotations := generatePatches;
     fmtGroupVersionResource := fmtResource;
     fmtPrometheusRuleSpec := fun spec => Join (fst <$> spec) " " |}.

(** Envelopes for the expected resource with each of the sample objects, and
    one for another resource. *)
Definition plainReview : AdmissionReview.t :=
  review (Some (request ruleResource "plain")).
Definition annotatedReview : AdmissionReview.t :=
  review (Some (request ruleResource "annotated")).
Definition brokenReview : AdmissionReview.t :=
  review (Some (request ruleResource "broken")).
Definition foreignReview : AdmissionReview.t :=
  review (Some (request alertmanagers "plain")).

(** A POST of [body] with the JSON content type. *)
Definition post (body : bytes) : Request.t :=
  {| Request.Body := Some (body, None);
     Request.Header := {[ "Content-Type" := ["application/json"] ]} |}.

(** The receiver after [New] and [RegisterMetrics] with two fresh counters. *)
Definition admission : Admission.t := RegisterMetrics (Some 0) (Some 0) (New []).

End Sample.

(** ** Two faulty deployments

    The sample deployment with a decoder that reports a field of the wrong
    type after it has filled in the rest of the envelope, and the sample
    deployment with a serializer that fails. *)

Module Faulty.

Definition badFieldBody : bytes :=
  lit "{'apiVersion':'admission.k8s.io/v1','kind':'AdmissionReview','request':{'dryRun':'yes'}}".

Definition badFieldError : error :=
  mkError "json: cannot unmarshal string into Go struct field AdmissionRequest.request.dryRun of type bool".

Definition decode (body : bytes) (into : AdmissionReview.t)
  : AdmissionReview.t * option error :=
  if String.eqb body badFieldBody
  then (Sample.review (Some (Sample.request ruleResource "plain")),
        Some badFieldError)
  else Sample.decode body into.

Definition lenientDecoder : Collaborators :=
  {| PrometheusRuleSpec := Sample.RuleSpec;
     Decode := decode;
     Marshal := Sample.marshal;
     UnmarshalPrometheusRules := Sample.unmarshalRules;
     UnmarshalPrometheusRule := Sample.unmarshalRule;
     ValidateRule := Sample.validateRule;
     generatePatchesForNonStringLabelsAnnotations := Sample.generatePatches;
     fmtGroupVersionResource := Sample.fmtResource;
     fmtPrometheusRuleSpec := fun spec => Join (fst <$> spec) " " |}.

Definition marshalError : error := mkError "json: unsupported value".

Definition failingMarshal : Collaborators :=
  {| PrometheusRuleSpec := Sample.RuleSpec;
     Decode := Sample.decode;
     Marshal := fun _ => ("", Some marshalError);
     UnmarshalPrometheusRules := Sample.unmarshalRules;
     UnmarshalPrometheusRule := Sample.unmarshalRule;
     ValidateRule := Sample.validateRule;
     generatePatchesForNonStringLabelsAnnotations := Sample.generatePatches;
     fmtGroupVersionResource := Sample.fmtResource;
     fmtPrometheusRuleSpec := fun spec => Join (fst <$> spec) " " |}.

Definition helperError : error := mkError "yaml: unmarshal errors".

Definition failingHelper : Collaborators :=
  {| PrometheusRuleSpec := Sample.RuleSpec;
     Decode := Sample.decode;
     Marshal := Sample.marshal;
     UnmarshalPrometheusRules := Sample.unmarshalRules;
     UnmarshalPrometheusRule := Sample.unmarshalRule;
     ValidateRule := Sample.validateRule;
     generatePatchesForNonStringLabelsAnnotations :=
       fun _ => ([Sample.labelPatch], Some helperError);
     fmtGroupVersionResource := Sample.fmtResource;
     fmtPrometheusRuleSpec := fun spec => Join (fst <$> spec) " " |}.

(** A request whose body breaks off while it is read. *)
Definition truncatedPost : Request.t :=
  {| Request.Body := Some ("{", Some (mkError "unexpected EOF"));
     Request.Header := {[ "Content-Type" := ["application/json"] ]} |}.

(** A request with a body and no Content-Type header. *)
Definition untypedPost : Request.t :=
  {| Request.Body := Some (Sample.fullBody, None); Request.Header := ∅ |}.

(** An envelope whose object does not unmarshal. *)
Definition unreadableReview : AdmissionReview.t :=
  Sample.review (Some (Sample.request ruleResource "{")).

End Faulty.

(** ** A deployment whose patch helper returns an empty fragment

    The sample deployment with a helper that succeeds with one fragment, the
    empty string. *)

Module Careless.

Definition generatePatches (raw : bytes) : list string * option error :=
  ([""], None).

Definition collaborators : Collaborators :=
  {| PrometheusRuleSpec := Sample.RuleSpec;
     Decode := Sample.decode;
     Marshal := Sample.marshal;
     UnmarshalPrometheusRules := Sample.unmarshalRules;
     UnmarshalPrometheusRule := Sample.unmarshalRule;
     ValidateRule := Sample.validateRule;
     generatePatchesForNonStringLabelsAnnotations := generatePatches;
     fmtGroupVersionResource := Sample.fmtResource;
     fmtPrometheusRuleSpec := fun spec => Join (fst <$> spec) " " |}.

End Careless.

(** * Properties *)

Lemma fold_addCause errors d :
  fold_left addCause errors d =
  {| StatusDetails.Name :=
       match errors with [] => StatusDetails.Name d | _ => "prometheusrules" end;
     StatusDetails.Causes :=
       StatusDetails.Causes d
         ++ map (fun e => {| StatusCause.Message := Error e |}) errors |}.
Proof.
  revert d. induction errors as [|e errors IH]; intros d.
  - destruct d. simpl. by rewrite app_nil_r.
  - simpl. rewrite IH. simpl. rewrite <- app_assoc. simpl.
    by destruct errors.
Qed.

Section Properties.
Context {deps : Collaborators}.

Ltac run :=
  repeat first
    [ progress unfold mbind, mret, M_bind, M_ret, Log, panic,
        validationTriggeredCounter_Inc, validationErrorsCounter_Inc
    | progress simpl ].

Lemma logInvalidRule_returns errors a :
  logInvalidRule errors a =
  Returns tt
    {| Admission.validationErrorsCounter := Admission.validationErrorsCounter a;
       Admission.validationTriggeredCounter := Admission.validationTriggeredCounter a;
       Admission.logger :=
         Admission.logger a
           ++ map (fun err =>
                     {| level := InfoLevel;
                        keyvals := [("msg", "Invalid rule"); ("err", Error err)] |})
                errors |}.
Proof.
  revert a. induction errors as [|err errors IH]; intros [e t l].
  - run. by rewrite app_nil_r.
  - run. unfold mbind, mret, M_bind, M_ret in IH. rewrite IH. simpl.
    by rewrite <- app_assoc.
Qed.

Lemma causesOf_failure message errors :
  causesOf (toAdmissionResponseFailure message errors) =
  map (fun e => {| StatusCause.Message := Error e |}) errors.
Proof.
  unfold causesOf, toAdmissionResponseFailure. simpl.
  by rewrite fold_addCause.
Qed.

(** C8: the failure-response builder is total and always answers
    allowed=false with status Failure, reason Invalid, code 422 and the given
    message; its causes are the input errors' messages, one record each and in
    order, and as soon as there is one error the details carry the resource
    kind name prometheusrules (with no error the name stays empty). *)
Theorem toAdmissionResponseFailure_shape message errors :
  AdmissionResponse.Allowed (toAdmissionResponseFailure message errors) = false
  /\ AdmissionResponse.Patch (toAdmissionResponseFailure message errors) = None
  /\ exists st d,
       AdmissionResponse.Result (toAdmissionResponseFailure message errors) = Some st
       /\ Status.Status st = "Failure"
       /\ Status.Reason st = "Invalid"
       /\ Status.Code st = 422%Z
       /\ Status.Message st = message
       /\ Status.Details st = Some d
       /\ StatusDetails.Causes d
          = map (fun e => {| StatusCause.Message := Error e |}) errors
       /\ length (StatusDetails.Causes d) = length errors
       /\ StatusDetails.Name d
          = match errors with [] => "" | _ => "prometheusrules" end.
Proof.
  split; [done|]. split; [done|].
  eexists _, _. split; [reflexivity|]. simpl.
  rewrite fold_addCause. simpl.
  repeat split. simpl. by rewrite length_map.
Qed.

(** What [validatePrometheusRules] does once both counters are registered:
    it returns the decision of the design, counts the call, counts the
    rejection if there is one, and only adds entries to the log. *)
Lemma validate_registered ar request e t l :
  AdmissionReview.Request ar = Some request ->
  exists entries,
    validatePrometheusRules ar (Admission.mk (Some e) (Some t) l) =
    Returns (Some (validateDecision request))
      (Admission.mk
         (Some (if AdmissionResponse.Allowed (validateDecision request)
                then e else S e))
         (Some (S t)) (l ++ entries)).
Proof.
  intros Hreq. unfold validatePrometheusRules, validateDecision.
  rewrite Hreq. run.
  destruct (decide (AdmissionRequest.Resource request ≠ ruleResource)) as [Hne|Heq].
  - rewrite decide_False by done. run.
    eexists. by rewrite <- app_assoc.
  - apply dec_stable in Heq. rewrite decide_True by done.
    destruct (UnmarshalPrometheusRule _) as [err|promRule]; run.
    + eexists. by rewrite <- app_assoc.
    + destruct (ValidateRule (PrometheusRule.Spec promRule)) as [|err errors] eqn:Hv.
      * simpl. eexists. reflexivity.
      * rewrite decide_True by done. run.
        pose proof (logInvalidRule_returns errors) as Hlog.
        unfold mbind, mret, M_bind, M_ret in Hlog. rewrite Hlog. simpl.
        eexists. rewrite <- !app_assoc. reflexivity.
Qed.

Lemma validate_unregistered ar e l :
  validatePrometheusRules ar (Admission.mk e None l) = Panics nilDereference.
Proof. reflexivity. Qed.

(** What [mutatePrometheusRules] does on a kind mismatch. *)
Lemma mutate_mismatch ar request a :
  AdmissionReview.Request ar = Some request ->
  AdmissionRequest.Resource request <> ruleResource ->
  exists entries,
    mutatePrometheusRules ar a =
    Returns
      (Some (toAdmissionResponseFailure "Unexpected resource kind"
               [errUnexpectedResource (AdmissionRequest.Resource request)]))
      (Admission.mk (Admission.validationErrorsCounter a)
         (Admission.validationTriggeredCounter a)
         (Admission.logger a ++ entries)).
Proof.
  intros Hreq Hne. unfold mutatePrometheusRules. rewrite Hreq. run.
  rewrite decide_True by done. run.
  eexists. by rewrite <- app_assoc.
Qed.

Lemma validateDecision_mismatch request :
  AdmissionRequest.Resource request <> ruleResource ->
  validateDecision request =
  toAdmissionResponseFailure "Unexpected resource kind"
    [errUnexpectedResource (AdmissionRequest.Resource request)].
Proof. intros Hne. unfold validateDecision. by rewrite decide_False. Qed.

Lemma registered_inv a :
  registered a ->
  exists e t, a = Admission.mk (Some e) (Some t) (Admission.logger a).
Proof.
  destruct a as [e t l]. unfold registered. simpl.
  intros [[t' ->] [e' ->]]. by eexists _, _.
Qed.

(** C4: on a validate request for the expected resource whose object
    unmarshals, a validator that reports N > 0 errors makes validate answer
    allowed=false with the message Rules are not valid and exactly N causes,
    which carry the validator's messages in the validator's order. *)
Theorem validate_reports_every_error ar request promRule a :
  AdmissionReview.Request ar = Some request ->
  AdmissionRequest.Resource request = ruleResource ->
  UnmarshalPrometheusRule (RawExtension.Raw (AdmissionRequest.Object request))
    = inr promRule ->
  ValidateRule (PrometheusRule.Spec promRule) <> [] ->
  registered a ->
  exists resp a',
    validatePrometheusRules ar a = Returns (Some resp) a'
    /\ AdmissionResponse.Allowed resp = false
    /\ Status.Message <$> AdmissionResponse.Result resp
       = Some "Rules are not valid"
    /\ length (causesOf resp)
       = length (ValidateRule (PrometheusRule.Spec promRule))
    /\ StatusCause.Message <$> causesOf resp
       = Error <$> ValidateRule (PrometheusRule.Spec promRule).
Proof.
  intros Hreq Hres Hobj Herrs (e & t & ->)%registered_inv.
  destruct (validate_registered ar request e t (Admission.logger a) Hreq)
    as [entries Hrun].
  eexists _, _. split; [exact Hrun|].
  unfold validateDecision. rewrite decide_True by done. rewrite Hobj.
  destruct (ValidateRule (PrometheusRule.Spec promRule)) as [|err errors];
    [done|].
  split; [done|]. split; [done|].
  rewrite causesOf_failure.
  split; [by rewrite length_map|].
  rewrite <- list_fmap_compose. reflexivity.
Qed.

(** C5: whenever the resource triple of the request is not
    monitoring.coreos.com/v1/prometheusrules, mutate and (with its counters
    registered) validate both answer allowed=false with exactly one cause, the
    message that names the expected and the received triple; the answer is a
    function of the received triple alone, whatever the object. *)
Theorem mismatch_is_rejected_with_one_cause ar request a :
  AdmissionReview.Request ar = Some request ->
  AdmissionRequest.Resource request <> ruleResource ->
  let rejection :=
    toAdmissionResponseFailure "Unexpected resource kind"
      [errUnexpectedResource (AdmissionRequest.Resource request)] in
  AdmissionResponse.Allowed rejection = false
  /\ causesOf rejection
     = [ {| StatusCause.Message :=
              "expected resource to be " ++ fmtGroupVersionResource ruleResource
              ++ ", but received "
              ++ fmtGroupVersionResource (AdmissionRequest.Resource request) |} ]
  /\ (exists a', mutatePrometheusRules ar a = Returns (Some rejection) a')
  /\ (registered a ->
      exists a', validatePrometheusRules ar a = Returns (Some rejection) a').
Proof.
  intros Hreq Hne rejection. split; [done|]. split; [done|]. split.
  - destruct (mutate_mismatch ar request a Hreq Hne) as [entries Hrun].
    by eexists.
  - intros (e & t & ->)%registered_inv.
    destruct (validate_registered ar request e t (Admission.logger a) Hreq)
      as [entries Hrun].
    rewrite validateDecision_mismatch in Hrun by done. by eexists.
Qed.

(** C6: on a validate request for the expected resource whose object
    unmarshals, a validator that reports no error makes validate answer
    allowed=true with no patch, no patch type and no result. *)
Theorem validate_allows_valid_rules ar request promRule a :
  AdmissionReview.Request ar = Some request ->
  AdmissionRequest.Resource request = ruleResource ->
  UnmarshalPrometheusRule (RawExtension.Raw (AdmissionRequest.Object request))
    = inr promRule ->
  ValidateRule (PrometheusRule.Spec promRule) = [] ->
  registered a ->
  exists resp a',
    validatePrometheusRules ar a = Returns (Some resp) a'
    /\ AdmissionResponse.Allowed resp = true
    /\ AdmissionResponse.Patch resp = None
    /\ AdmissionResponse.PatchType resp = None
    /\ AdmissionResponse.Result resp = None.
Proof.
  intros Hreq Hres Hobj Herrs (e & t & ->)%registered_inv.
  destruct (validate_registered ar request e t (Admission.logger a) Hreq)
    as [entries Hrun].
  eexists _, _. split; [exact Hrun|].
  unfold validateDecision. rewrite decide_True by done.
  by rewrite Hobj, Herrs.
Qed.

(** ** The patch of the mutate function *)

Lemma append_empty s : s ++ "" = s.
Proof.
  induction s as [|c s IH]; [done|].
  change (String c (s ++ "") = String c s). by rewrite IH.
Qed.

Lemma element_of_parses s v : Json.parses s v -> Json.element s v.
Proof.
  intros Hs. rewrite <- (append_empty s).
  by apply (Json.element_intro "" s "").
Qed.

Lemma element_string a k b :
  Json.ws a = true -> Json.ws b = true -> Json.chars k = true ->
  Json.element (a ++ Json.quote k ++ b) (Json.Str k).
Proof. intros. apply Json.element_intro; auto. by apply Json.parses_string. Qed.

Lemma member_string a k b c v d :
  Json.ws a = true -> Json.ws b = true -> Json.ws c = true ->
  Json.ws d = true -> Json.chars k = true -> Json.chars v = true ->
  Json.member (a ++ Json.quote k ++ b ++ ":" ++ c ++ Json.quote v ++ d)
    (k, Json.Str v).
Proof.
  intros. apply Json.member_intro; auto. by apply element_string.
Qed.

(** [strings.Join] of one or more JSON values with a comma is the inside of
    a JSON array. *)
Lemma elements_Join frags ops :
  Forall2 Json.element frags ops -> frags <> [] ->
  Json.elements (Join frags ",") ops.
Proof.
  induction 1 as [|frag op frags ops Hfrag Hrest IH]; [done|]. intros _.
  destruct Hrest as [|frag' op' frags' ops' Hfrag' Hrest'].
  - by apply Json.elements_one.
  - change (Join (frag :: frag' :: frags') ",")
      with (frag ++ "," ++ Join (frag' :: frags') ",").
    apply Json.elements_cons; [done|]. by apply IH.
Qed.

Lemma array_of_fragments frags ops :
  Forall2 Json.element frags ops -> frags <> [] ->
  Json.element ("[" ++ Join frags "," ++ "]") (Json.Array ops).
Proof.
  intros Hfrags Hne.
  by apply element_of_parses, Json.parses_array, elements_Join.
Qed.

Lemma addFirstAnnotationPatch_parses :
  Json.element addFirstAnnotationPatch firstAnnotationOp.
Proof.
  assert (Hop : Json.member (lit " 'op': 'add'") ("op", Json.Str "add"))
    by (apply (member_string " " "op" "" " " "add" ""); done).
  assert (Hpath : Json.member (lit " 'path': '/metadata/annotations'")
                    ("path", Json.Str "/metadata/annotations"))
    by (apply (member_string " " "path" "" " " "/metadata/annotations" "");
        done).
  assert (Hmap : Json.parses (lit "{'prometheus-operator-validated': 'true'}")
                   (Json.Object
                      [("prometheus-operator-validated", Json.Str "true")])).
  { apply (Json.parses_object (lit "'prometheus-operator-validated': 'true'")).
    apply Json.members_one.
    apply (member_string "" "prometheus-operator-validated" "" " " "true" "");
      done. }
  assert (Hvalue : Json.member
                     (lit " 'value': {'prometheus-operator-validated': 'true'}")
                     ("value",
                      Json.Object
                        [("prometheus-operator-validated", Json.Str "true")])).
  { apply (Json.member_intro " " "value" ""
             (" " ++ lit "{'prometheus-operator-validated': 'true'}" ++ ""));
      [done..|].
    by apply Json.element_intro. }
  apply element_of_parses.
  apply (Json.parses_object _ _
           (Json.members_cons _ _ _ _ Hop
              (Json.members_cons _ _ _ _ Hpath (Json.members_one _ _ Hvalue)))).
Qed.

Lemma addAdditionalAnnotationPatch_parses :
  Json.element addAdditionalAnnotationPatch additionalAnnotationOp.
Proof.
  assert (Hop : Json.member (lit " 'op': 'add'") ("op", Json.Str "add"))
    by (apply (member_string " " "op" "" " " "add" ""); done).
  assert (Hpath : Json.member
                    (lit " 'path': '/metadata/annotations/prometheus-operator-validated'")
                    ("path",
                     Json.Str "/metadata/annotations/prometheus-operator-validated"))
    by (apply (member_string " " "path" "" " "
                 "/metadata/annotations/prometheus-operator-validated" "");
        done).
  assert (Hvalue : Json.member (lit " 'value': 'true' ")
                     ("value", Json.Str "true"))
    by (apply (member_string " " "value" "" " " "true" " "); done).
  apply element_of_parses.
  apply (Json.parses_object _ _
           (Json.members_cons _ _ _ _ Hop
              (Json.members_cons _ _ _ _ Hpath (Json.members_one _ _ Hvalue)))).
Qed.


(** C10: on a kind mismatch the mutate path leaves both counters as they
    were, the validate path adds one to each, and neither changes anything
    else of the receiver than the log, to which entries are appended. *)
Theorem mismatch_touches_counters_and_log_only ar request a :
  AdmissionReview.Request ar = Some request ->
  AdmissionRequest.Resource request <> ruleResource ->
  (exists resp entries,
     mutatePrometheusRules ar a =
     Returns resp
       (Admission.mk (Admission.validationErrorsCounter a)
          (Admission.validationTriggeredCounter a)
          (Admission.logger a ++ entries)))
  /\ (forall e t,
        Admission.validationErrorsCounter a = Some e ->
        Admission.validationTriggeredCounter a = Some t ->
        exists resp entries,
          validatePrometheusRules ar a =
          Returns resp
            (Admission.mk (Some (S e)) (Some (S t))
               (Admission.logger a ++ entries))).
Proof.
  intros Hreq Hne. split.
  - destruct (mutate_mismatch ar request a Hreq Hne) as [entries Hrun].
    by eexists _, _.
  - intros e t He Ht. destruct a as [e' t' l]. simpl in *. subst e' t'.
    destruct (validate_registered ar request e t l Hreq) as [entries Hrun].
    rewrite validateDecision_mismatch in Hrun by done.
    by eexists _, _.
Qed.

(** C9, as the code has it: validate completes only when the counters are
    registered.  With both registered it returns the decision of the design
    for every envelope that carries a request and counts the call; with the
    triggered counter absent its first statement is a nil dereference and it
    panics. *)
Theorem validate_needs_registered_counters ar request a :
  AdmissionReview.Request ar = Some request ->
  (registered a ->
   exists a',
     validatePrometheusRules ar a = Returns (Some (validateDecision request)) a'
     /\ Admission.validationTriggeredCounter a'
        = S <$> Admission.validationTriggeredCounter a)
  /\ (Admission.validationTriggeredCounter a = None ->
      validatePrometheusRules ar a = Panics nilDereference).
Proof.
  intros Hreq. split.
  - intros (e & t & ->)%registered_inv.
    destruct (validate_registered ar request e t (Admission.logger a) Hreq)
      as [entries Hrun].
    eexists. split; [exact Hrun|]. reflexivity.
  - destruct a as [e t l]. simpl. intros ->. apply validate_unregistered.
Qed.

(** ** The transport *)

Lemma run_bind {A B : Type} (m : M A) (f : A -> M B) a :
  (m ≫= f) a =
  match m a with
  | Returns x a' => f x a'
  | Panics reason => Panics reason
  end.
Proof. reflexivity. Qed.

Lemma run_seq {B : Type} lvl kvs (k : M B) a :
  (Log lvl kvs ;; k) a = k (logged a [ {| level := lvl; keyvals := kvs |} ]).
Proof. reflexivity. Qed.

Section Transport.
Variables (w : ResponseWriter.t) (r : Request.t) (admitFn : admitFunc).
Variables (a : Admission.t) (body : bytes).
Hypothesis Hbody : Request.Body r = Some (body, None).
Hypothesis Hnonempty : String.length body <> 0.
Hypothesis Htype : Header_Get (Request.Header r) "Content-Type" = "application/json".

(** With a request in the envelope and a response from the admission
    function, the envelope written echoes UID, APIVersion and Kind. *)
Lemma serveAdmission_admitted requested request response a' respBytes :
  Decode body AdmissionReview.zero = (requested, None) ->
  AdmissionReview.Request requested = Some request ->
  admitFn requested (logged a [received body]) = Returns (Some response) a' ->
  Marshal (echo requested request response) = (respBytes, None) ->
  ResponseWriter.status w = None ->
  ResponseWriter.failure w = None ->
  exists entries,
    serveAdmission w r admitFn a =
    Returns
      {| ResponseWriter.status := Some StatusOK;
         ResponseWriter.written := ResponseWriter.written w ++ respBytes;
         ResponseWriter.failure := None |}
      (logged a' entries).
Proof.
  intros Hdec Hreq Hadmit Hmarshal Hstatus Hfailure.
  unfold serveAdmission. rewrite Hbody.
  rewrite decide_False by done. rewrite Htype. rewrite decide_False by (by intros []).
  rewrite Hdec. rewrite run_seq, run_bind. fold (received body).
  rewrite Hadmit, Hreq. fold (echo requested request response).
  rewrite Hmarshal. rewrite run_seq, run_bind.
  unfold mret, M_ret, ResponseWriter.Write, ResponseWriter.WriteHeader.
  rewrite Hstatus. simpl. rewrite Hfailure.
  by eexists [_].
Qed.

(** A decoding error that leaves a request in the envelope is answered with
    the failure response under that request's UID. *)
Lemma serveAdmission_decode_failure_answered requested request err respBytes :
  Decode body AdmissionReview.zero = (requested, Some err) ->
  AdmissionReview.Request requested = Some request ->
  Marshal (echo requested request
             (toAdmissionResponseFailure "Unable to deserialize request" [err]))
    = (respBytes, None) ->
  ResponseWriter.status w = None ->
  ResponseWriter.failure w = None ->
  exists entries,
    serveAdmission w r admitFn a =
    Returns
      {| ResponseWriter.status := Some StatusOK;
         ResponseWriter.written := ResponseWriter.written w ++ respBytes;
         ResponseWriter.failure := None |}
      (logged a entries).
Proof.
  intros Hdec Hreq Hmarshal Hstatus Hfailure.
  unfold serveAdmission. rewrite Hbody.
  rewrite decide_False by done. rewrite Htype. rewrite decide_False by (by intros []).
  rewrite Hdec. rewrite run_seq, run_bind, run_seq.
  unfold mret at 1. unfold M_ret at 1. rewrite Hreq.
  fold (echo requested request
          (toAdmissionResponseFailure "Unable to deserialize request" [err])).
  rewrite Hmarshal. rewrite run_seq, run_bind.
  unfold mret, M_ret, ResponseWriter.Write, ResponseWriter.WriteHeader.
  rewrite Hstatus. simpl. rewrite Hfailure.
  eexists [_; _; _]. unfold logged. simpl. by rewrite <- !app_assoc.
Qed.

(** A decoding error that leaves no request in the envelope ends in the nil
    dereference of [requestedAdmissionReview.Request.UID]. *)
Lemma serveAdmission_decode_failure_panics requested err :
  Decode body AdmissionReview.zero = (requested, Some err) ->
  AdmissionReview.Request requested = None ->
  serveAdmission w r admitFn a = Panics nilDereference.
Proof.
  intros Hdec Hreq. unfold serveAdmission. rewrite Hbody.
  rewrite decide_False by done. rewrite Htype. rewrite decide_False by (by intros []).
  rewrite Hdec. run. by rewrite Hreq.
Qed.

(** A decoded envelope is handed to the admission function as it is, with or
    without a request; without one, whatever the function returns, the copy
    of the UID panics. *)
Lemma serveAdmission_admits_without_request requested :
  Decode body AdmissionReview.zero = (requested, None) ->
  AdmissionReview.Request requested = None ->
  serveAdmission w r admitFn a =
  match admitFn requested (logged a [received body]) with
  | Returns _ _ => Panics nilDereference
  | Panics reason => Panics reason
  end.
Proof.
  intros Hdec Hreq. unfold serveAdmission. rewrite Hbody.
  rewrite decide_False by done. rewrite Htype. rewrite decide_False by (by intros []).
  rewrite Hdec. run. unfold logged, received. simpl.
  destruct (admitFn requested _) as [[response|] a'|reason]; [|done..].
  by rewrite Hreq.
Qed.

End Transport.

End Properties.

(** ** The handler on the sample deployment *)

Section SampleRuns.
Local Existing Instance Sample.collaborators.

(** Evaluate the handler call on the left of the goal, then compare. *)
Ltac evaluate :=
  lazymatch goal with
  | |- ?call = _ =>
      let o := fresh "o" in
      set (o := call); vm_compute in o; subst o; reflexivity
  end.

Example empty_body_is_a_bad_request :
  exists a',
    servePrometheusRulesValidate ResponseWriter.fresh (Sample.post "")
      Sample.admission
    = Returns
        {| ResponseWriter.status := Some 400%Z;
           ResponseWriter.written :=
             "request has no body" ++ String (Ascii.ascii_of_nat 10) "";
           ResponseWriter.failure := None |} a'.
Proof. eexists. evaluate. Qed.

Example text_plain_is_unsupported :
  exists a',
    servePrometheusRulesMutate ResponseWriter.fresh
      {| Request.Body := Some (Sample.fullBody, None);
         Request.Header := {[ "Content-Type" := ["text/plain"] ]} |}
      Sample.admission
    = Returns
        {| ResponseWriter.status := Some 415%Z;
           ResponseWriter.written :=
             "invalid Content-Type, want `application/json`"
             ++ String (Ascii.ascii_of_nat 10) "";
           ResponseWriter.failure := None |} a'.
Proof. eexists. evaluate. Qed.

Example full_request_is_answered :
  exists respBytes a',
    servePrometheusRulesMutate ResponseWriter.fresh (Sample.post Sample.fullBody)
      Sample.admission
    = Returns
        {| ResponseWriter.status := Some 200%Z;
           ResponseWriter.written := respBytes;
           ResponseWriter.failure := None |} a'.
Proof. eexists _, _. evaluate. Qed.

(** C1, at a body that does not decode: the decoder leaves the request
    envelope as it was created, without a request, and the copy of the UID
    into the response envelope dereferences nil; the handler panics and no
    response envelope is serialized, so nothing echoes UID, APIVersion and
    Kind on this path. *)
Theorem decode_failure_echoes_nothing :
  Decode Sample.garbageBody AdmissionReview.zero
  = (AdmissionReview.zero,
     Some (mkError "couldn't get version/kind; json parse error"))
  /\ servePrometheusRulesMutate ResponseWriter.fresh
       (Sample.post Sample.garbageBody) Sample.admission
     = Panics nilDereference.
Proof. split; reflexivity. Qed.

(** C2, at a body that does not decode: whatever the route, the writer and
    the state of the receiver, the handler panics after it has built the
    failure response; no AdmissionReview is written and no status 200 is
    sent. *)
Theorem decode_failure_is_not_answered w admitFn a :
  serveAdmission w (Sample.post Sample.garbageBody) admitFn a
  = Panics nilDereference.
Proof.
  by apply (serveAdmission_decode_failure_panics w
              (Sample.post Sample.garbageBody) admitFn a Sample.garbageBody
              eq_refl ltac:(done) eq_refl AdmissionReview.zero
              (mkError "couldn't get version/kind; json parse error")).
Qed.

(** C7, at an envelope without a request: the body decodes, so the
    dispatcher calls the admission function, and it calls it with no
    request; mutate and validate then panic on [ar.Request.Resource]. *)
Theorem admitFn_invoked_without_a_request :
  Decode Sample.noRequestBody AdmissionReview.zero = (Sample.review None, None)
  /\ serveAdmission ResponseWriter.fresh (Sample.post Sample.noRequestBody)
       requireRequest Sample.admission
     = Panics "admit invoked without a request"
  /\ servePrometheusRulesMutate ResponseWriter.fresh
       (Sample.post Sample.noRequestBody) Sample.admission
     = Panics nilDereference
  /\ servePrometheusRulesValidate ResponseWriter.fresh
       (Sample.post Sample.noRequestBody) Sample.admission
     = Panics nilDereference.
Proof. repeat split; reflexivity. Qed.

(** C9 fails on a receiver fresh from [New]: validate panics on the nil
    triggered counter instead of returning a response. *)
Lemma validate_panics_without_counters :
  validatePrometheusRules Sample.plainReview (New []) = Panics nilDereference.
Proof. reflexivity. Qed.

Lemma registered_sample : registered Sample.admission.
Proof. split; eexists; reflexivity. Defined.

Lemma labelPatch_parses : Json.element Sample.labelPatch Sample.labelOp.
Proof.
  assert (Hop : Json.member (lit "'op': 'replace'") ("op", Json.Str "replace"))
    by (apply (member_string "" "op" "" " " "replace" ""); done).
  assert (Hpath : Json.member
                    (lit " 'path': '/spec/groups/0/rules/0/labels/severity'")
                    ("path", Json.Str "/spec/groups/0/rules/0/labels/severity"))
    by (apply (member_string " " "path" "" " "
                 "/spec/groups/0/rules/0/labels/severity" ""); done).
  assert (Hvalue : Json.member (lit " 'value': '1'") ("value", Json.Str "1"))
    by (apply (member_string " " "value" "" " " "1" ""); done).
  apply element_of_parses.
  apply (Json.parses_object _ _
           (Json.members_cons _ _ _ _ Hop
              (Json.members_cons _ _ _ _ Hpath (Json.members_one _ _ Hvalue)))).
Qed.

Lemma labelPatches_parse :
  Forall2 Json.element [Sample.labelPatch] [Sample.labelOp].
Proof. constructor; [apply labelPatch_parses | constructor]. Qed.


Lemma validate_reports_every_error_witness :
  exists resp a',
    validatePrometheusRules Sample.brokenReview Sample.admission
    = Returns (Some resp) a'
    /\ AdmissionResponse.Allowed resp = false
    /\ Status.Message <$> AdmissionResponse.Result resp
       = Some "Rules are not valid"
    /\ length (causesOf resp) = 2
    /\ StatusCause.Message <$> causesOf resp
       = ["rule first has no expression"; "rule last has no expression"].
Proof.
  apply (validate_reports_every_error (deps := Sample.collaborators)
           Sample.brokenReview
           (Sample.request ruleResource "broken")
           (PrometheusRule.mk
              ([("first", ""); ("up", "up == 1"); ("last", "")] : Sample.RuleSpec))
           Sample.admission);
    [reflexivity | reflexivity | reflexivity | discriminate
    | exact registered_sample].
Defined.

Lemma mismatch_is_rejected_with_one_cause_witness :
  exists rejection : AdmissionResponse.t,
    AdmissionResponse.Allowed rejection = false
    /\ causesOf rejection
       = [ {| StatusCause.Message :=
                "expected resource to be {monitoring.coreos.com v1 prometheusrules}, but received {monitoring.coreos.com v1 alertmanagers}" |} ]
    /\ (exists a',
          mutatePrometheusRules Sample.foreignReview Sample.admission
          = Returns (Some rejection) a')
    /\ (exists a',
          validatePrometheusRules Sample.foreignReview Sample.admission
          = Returns (Some rejection) a').
Proof.
  destruct (mismatch_is_rejected_with_one_cause Sample.foreignReview
              (Sample.request Sample.alertmanagers "plain") Sample.admission
              eq_refl ltac:(discriminate))
    as (Hallowed & Hcauses & Hmutate & Hvalidate).
  eexists. split; [exact Hallowed|]. split; [exact Hcauses|].
  split; [exact Hmutate|]. exact (Hvalidate registered_sample).
Defined.

Lemma validate_allows_valid_rules_witness :
  exists resp a',
    validatePrometheusRules Sample.plainReview Sample.admission
    = Returns (Some resp) a'
    /\ AdmissionResponse.Allowed resp = true
    /\ AdmissionResponse.Patch resp = None
    /\ AdmissionResponse.PatchType resp = None
    /\ AdmissionResponse.Result resp = None.
Proof.
  apply (validate_allows_valid_rules (deps := Sample.collaborators)
           Sample.plainReview
           (Sample.request ruleResource "plain")
           (PrometheusRule.mk ([("up", "up == 1")] : Sample.RuleSpec))
           Sample.admission);
    [reflexivity | reflexivity | reflexivity | reflexivity
    | exact registered_sample].
Defined.

Lemma validate_needs_registered_counters_witness :
  (exists a',
     validatePrometheusRules Sample.brokenReview Sample.admission
     = Returns
         (Some (toAdmissionResponseFailure "Rules are not valid"
                  [mkError "rule first has no expression";
                   mkError "rule last has no expression"])) a'
     /\ Admission.validationTriggeredCounter a' = Some 1)
  /\ validatePrometheusRules Sample.brokenReview (New []) = Panics nilDereference.
Proof.
  split.
  - exact (proj1 (validate_needs_registered_counters Sample.brokenReview
                    (Sample.request ruleResource "broken") Sample.admission
                    eq_refl) registered_sample).
  - exact (proj2 (validate_needs_registered_counters Sample.brokenReview
                    (Sample.request ruleResource "broken") (New [])
                    eq_refl) eq_refl).
Defined.

Lemma mismatch_touches_counters_and_log_only_witness :
  (exists resp entries,
     mutatePrometheusRules Sample.foreignReview Sample.admission
     = Returns resp (Admission.mk (Some 0) (Some 0) entries))
  /\ (exists resp entries,
        validatePrometheusRules Sample.foreignReview Sample.admission
        = Returns resp (Admission.mk (Some 1) (Some 1) entries)).
Proof.
  destruct (mismatch_touches_counters_and_log_only Sample.foreignReview
              (Sample.request Sample.alertmanagers "plain") Sample.admission
              eq_refl ltac:(discriminate))
    as [(resp & entries & Hmutate) Hvalidate].
  split.
  - exists resp, entries. exact Hmutate.
  - destruct (Hvalidate 0 0 eq_refl eq_refl) as (resp' & entries' & Hrun).
    exists resp', entries'. exact Hrun.
Defined.

End SampleRuns.

(** * Further properties of the handler *)

Section Coverage.
Context {deps : Collaborators}.

Ltac run :=
  repeat first
    [ progress unfold mbind, mret, M_bind, M_ret, Log, panic,
        validationTriggeredCounter_Inc, validationErrorsCounter_Inc
    | progress simpl ].

(** [mutatePrometheusRules] returns its decision for every envelope with a
    request, whatever the state of the receiver, and only logs. *)
Lemma mutate_returns ar request a :
  AdmissionReview.Request ar = Some request ->
  exists entries,
    entries <> []
    /\ mutatePrometheusRules ar a
       = Returns (Some (mutateDecision request)) (logged a entries).
Proof.
  intros Hreq. unfold mutatePrometheusRules, mutateDecision, logged.
  rewrite Hreq. run.
  destruct (decide (AdmissionRequest.Resource request ≠ ruleResource)) as [Hne|Heq].
  - rewrite decide_False by done. run.
    eexists [_; _]. split; [done|]. by rewrite <- app_assoc.
  - apply dec_stable in Heq. rewrite decide_True by done.
    destruct (UnmarshalPrometheusRules _) as [err|rule]; run.
    + eexists [_; _]. split; [done|]. by rewrite <- app_assoc.
    + destruct (generatePatchesForNonStringLabelsAnnotations _)
        as [patches [err|]]; run.
      * eexists [_; _]. split; [done|]. by rewrite <- app_assoc.
      * eexists [_]. split; [done|]. reflexivity.
Qed.

(** X8: the mutate function never reads or changes a counter: for every
    envelope with a request it returns a response, also on a receiver whose
    counters were never registered, and leaves the receiver as it was but for
    new log entries. *)
Theorem mutate_keeps_the_counters ar request a :
  AdmissionReview.Request ar = Some request ->
  exists resp a',
    mutatePrometheusRules ar a = Returns (Some resp) a'
    /\ Admission.validationTriggeredCounter a'
       = Admission.validationTriggeredCounter a
    /\ Admission.validationErrorsCounter a'
       = Admission.validationErrorsCounter a
    /\ exists entries, Admission.logger a' = (Admission.logger a ++ entries)%list.
Proof.
  intros Hreq.
  destruct (mutate_returns ar request a Hreq) as (entries & _ & Hrun).
  eexists _, _. split; [exact Hrun|]. simpl. eauto.
Qed.

(** X9: an object that does not unmarshal makes mutate answer allowed=false
    with the message Cannot unmarshal admission request (validate has another
    message for the same failure), the unmarshalling error as the only cause
    and no patch. *)
Theorem mutate_rejects_unreadable_object ar request err a :
  AdmissionReview.Request ar = Some request ->
  AdmissionRequest.Resource request = ruleResource ->
  UnmarshalPrometheusRules (RawExtension.Raw (AdmissionRequest.Object request))
    = inl err ->
  exists resp a',
    mutatePrometheusRules ar a = Returns (Some resp) a'
    /\ AdmissionResponse.Allowed resp = false
    /\ Status.Message <$> AdmissionResponse.Result resp
       = Some "Cannot unmarshal admission request"
    /\ causesOf resp = [ {| StatusCause.Message := Error err |} ]
    /\ AdmissionResponse.Patch resp = None
    /\ AdmissionResponse.PatchType resp = None.
Proof.
  intros Hreq Hres Hobj.
  destruct (mutate_returns ar request a Hreq) as (entries & _ & Hrun).
  eexists _, _. split; [exact Hrun|].
  unfold mutateDecision. rewrite decide_True by done. by rewrite Hobj.
Qed.

(** X10: when the patch helper reports an error, mutate answers
    allowed=false with the message Cannot unmarshal rules from spec and the
    helper's error as the only cause; whatever patches the helper returned
    beside the error are dropped, and no annotation patch is issued. *)
Theorem mutate_rejects_when_the_helper_fails ar request rule patches err a :
  AdmissionReview.Request ar = Some request ->
  AdmissionRequest.Resource request = ruleResource ->
  UnmarshalPrometheusRules (RawExtension.Raw (AdmissionRequest.Object request))
    = inr rule ->
  generatePatchesForNonStringLabelsAnnotations
    (RawExtension.Raw (PrometheusRules.Spec rule)) = (patches, Some err) ->
  exists resp a',
    mutatePrometheusRules ar a = Returns (Some resp) a'
    /\ AdmissionResponse.Allowed resp = false
    /\ Status.Message <$> AdmissionResponse.Result resp
       = Some "Cannot unmarshal rules from spec"
    /\ causesOf resp = [ {| StatusCause.Message := Error err |} ]
    /\ AdmissionResponse.Patch resp = None
    /\ AdmissionResponse.PatchType resp = None.
Proof.
  intros Hreq Hres Hobj Hgen.
  destruct (mutate_returns ar request a Hreq) as (entries & _ & Hrun).
  eexists _, _. split; [exact Hrun|].
  unfold mutateDecision. rewrite decide_True by done. by rewrite Hobj, Hgen.
Qed.

(** X11: an object that does not unmarshal makes validate answer
    allowed=false with the message Cannot unmarshal rules from spec and the
    unmarshalling error as the only cause, and counts as one call and one
    error. *)
Theorem validate_rejects_unreadable_object ar request err e t l :
  AdmissionReview.Request ar = Some request ->
  AdmissionRequest.Resource request = ruleResource ->
  UnmarshalPrometheusRule (RawExtension.Raw (AdmissionRequest.Object request))
    = inl err ->
  exists resp entries,
    validatePrometheusRules ar (Admission.mk (Some e) (Some t) l)
    = Returns (Some resp) (Admission.mk (Some (S e)) (Some (S t)) (l ++ entries))
    /\ AdmissionResponse.Allowed resp = false
    /\ Status.Message <$> AdmissionResponse.Result resp
       = Some "Cannot unmarshal rules from spec"
    /\ causesOf resp = [ {| StatusCause.Message := Error err |} ]
    /\ AdmissionResponse.Patch resp = None.
Proof.
  intros Hreq Hres Hobj.
  destruct (validate_registered ar request e t l Hreq) as [entries Hrun].
  revert Hrun. unfold validateDecision. rewrite decide_True by done.
  rewrite Hobj. simpl. intros Hrun.
  eexists _, _. split; [exact Hrun|]. done.
Qed.

Lemma failure_wellFormed message err errors :
  wellFormed (toAdmissionResponseFailure message (err :: errors)).
Proof.
  unfold wellFormed. simpl. split; [done|]. split; [done|]. split.
  - rewrite causesOf_failure. done.
  - by eexists.
Qed.

(** X7: with both counters registered, every call of validate on an
    envelope with a request adds exactly one to the triggered counter, adds
    one to the errors counter exactly when the response is a rejection, and
    appends to the log. *)
Theorem validate_counts_calls_and_rejections ar request e t l :
  AdmissionReview.Request ar = Some request ->
  exists resp entries,
    validatePrometheusRules ar (Admission.mk (Some e) (Some t) l)
    = Returns (Some resp)
        (Admission.mk
           (Some (if AdmissionResponse.Allowed resp then e else S e))
           (Some (S t)) (l ++ entries)).
Proof.
  intros Hreq.
  destruct (validate_registered ar request e t l Hreq) as [entries Hrun].
  by eexists _, _.
Qed.

(** X12: every response of the two admission functions is well formed: an
    allowance carries no result, a rejection carries status Failure, reason
    Invalid, code 422, at least one cause and no patch.  Validate never
    issues a patch; an allowance of mutate always carries one, of type
    JSONPatch.  Neither function sets the UID. *)
Theorem responses_are_well_formed ar request a :
  AdmissionReview.Request ar = Some request ->
  (exists resp a',
     mutatePrometheusRules ar a = Returns (Some resp) a'
     /\ wellFormed resp
     /\ AdmissionResponse.UID resp = ""
     /\ (AdmissionResponse.Allowed resp = true ->
         AdmissionResponse.PatchType resp = Some PatchTypeJSONPatch
         /\ is_Some (AdmissionResponse.Patch resp)))
  /\ (registered a ->
      exists resp a',
        validatePrometheusRules ar a = Returns (Some resp) a'
        /\ wellFormed resp
        /\ AdmissionResponse.UID resp = ""
        /\ AdmissionResponse.Patch resp = None
        /\ AdmissionResponse.PatchType resp = None).
Proof.
  intros Hreq. split.
  - destruct (mutate_returns ar request a Hreq) as (entries & _ & Hrun).
    eexists _, _. split; [exact Hrun|]. unfold mutateDecision.
    destruct (decide _); [|by split; [apply failure_wellFormed|]].
    destruct (UnmarshalPrometheusRules _) as [err|rule];
      [by split; [apply failure_wellFormed|]|].
    destruct (generatePatchesForNonStringLabelsAnnotations _)
      as [patches [err|]]; [by split; [apply failure_wellFormed|]|].
    split; [done|]. split; [done|]. intros _. split; [done|]. by eexists.
  - intros (e & t & ->)%registered_inv.
    destruct (validate_registered ar request e t (Admission.logger a) Hreq)
      as [entries Hrun].
    eexists _, _. split; [exact Hrun|]. unfold validateDecision.
    destruct (decide _); [|by split; [apply failure_wellFormed|]].
    destruct (UnmarshalPrometheusRule _) as [err|promRule];
      [by split; [apply failure_wellFormed|]|].
    destruct (ValidateRule _) as [|err errors];
      [done | by split; [apply failure_wellFormed|]].
Qed.

(** X13: with the triggered counter registered and the errors counter nil,
    validate still allows what it allows, but every rejection ends in the nil
    dereference of the errors counter instead of a response. *)
Theorem validate_without_errors_counter ar request t l :
  AdmissionReview.Request ar = Some request ->
  (AdmissionResponse.Allowed (validateDecision request) = true ->
   exists entries,
     validatePrometheusRules ar (Admission.mk None (Some t) l)
     = Returns (Some (AdmissionResponse.new true))
         (Admission.mk None (Some (S t)) (l ++ entries)))
  /\ (AdmissionResponse.Allowed (validateDecision request) = false ->
      validatePrometheusRules ar (Admission.mk None (Some t) l)
      = Panics nilDereference).
Proof.
  intros Hreq. unfold validatePrometheusRules, validateDecision.
  rewrite Hreq. run.
  destruct (decide (AdmissionRequest.Resource request ≠ ruleResource)) as [Hne|Heq].
  - rewrite decide_False by done. run. split; [done|]. by intros _.
  - apply dec_stable in Heq. rewrite decide_True by done.
    destruct (UnmarshalPrometheusRule _) as [err|promRule]; run.
    + split; [done|]. by intros _.
    + destruct (ValidateRule (PrometheusRule.Spec promRule)) as [|err errors].
      * simpl. split; [|done]. intros _. by eexists.
      * rewrite decide_True by done. run.
        pose proof (logInvalidRule_returns errors) as Hlog.
        unfold mbind, mret, M_bind, M_ret in Hlog. rewrite Hlog. simpl.
        split; [done|]. by intros _.
Qed.

Lemma append_assoc (s1 s2 s3 : string) : (s1 ++ s2) ++ s3 = s1 ++ s2 ++ s3.
Proof.
  induction s1 as [|c s1 IH]; [done|].
  change (String c ((s1 ++ s2) ++ s3) = String c (s1 ++ s2 ++ s3)).
  by rewrite IH.
Qed.

(** [strings.Join] after one more element. *)
Lemma Join_snoc elems e sep :
  Join (elems ++ [e]) sep
  = match elems with
    | [] => e
    | _ => Join elems sep ++ sep ++ e
    end.
Proof.
  induction elems as [|x elems IH]; [done|].
  destruct elems as [|y elems]; [done|].
  change (x ++ sep ++ Join ((y :: elems) ++ [e]) sep
          = (x ++ sep ++ Join (y :: elems) sep) ++ sep ++ e).
  rewrite IH. by rewrite !append_assoc.
Qed.

(** X15: the text of the patch: an opening bracket, the helper's fragments
    each followed by a comma, the annotation patch, a closing bracket.  With
    no fragment from the helper the payload is the annotation patch alone
    between brackets, with no comma. *)
Theorem mutate_patch_text ar request rule patches a :
  AdmissionReview.Request ar = Some request ->
  AdmissionRequest.Resource request = ruleResource ->
  UnmarshalPrometheusRules (RawExtension.Raw (AdmissionRequest.Object request))
    = inr rule ->
  generatePatchesForNonStringLabelsAnnotations
    (RawExtension.Raw (PrometheusRules.Spec rule)) = (patches, None) ->
  exists resp a',
    mutatePrometheusRules ar a = Returns (Some resp) a'
    /\ AdmissionResponse.Patch resp
       = Some ("["
               ++ match patches with
                  | [] => ""
                  | _ => Join patches "," ++ ","
                  end
               ++ (if decide (size (PrometheusRules.Annotations rule) = 0)
                   then addFirstAnnotationPatch
                   else addAdditionalAnnotationPatch)
               ++ "]").
Proof.
  intros Hreq Hres Hobj Hgen.
  destruct (mutate_returns ar request a Hreq) as (entries & _ & Hrun).
  eexists _, _. split; [exact Hrun|].
  unfold mutateDecision. rewrite decide_True by done. rewrite Hobj, Hgen.
  simpl. do 2 f_equal.
  destruct (decide _); rewrite Join_snoc; destruct patches as [|p patches];
    try reflexivity; by rewrite !append_assoc.
Qed.

(** X16: when the validator reports errors, validate logs, after its two
    debug entries (the call, and the rule content), one info entry per error
    with the error's message, in the validator's order, and nothing else. *)
Theorem validate_logs_every_error ar request promRule e t l :
  AdmissionReview.Request ar = Some request ->
  AdmissionRequest.Resource request = ruleResource ->
  UnmarshalPrometheusRule (RawExtension.Raw (AdmissionRequest.Object request))
    = inr promRule ->
  ValidateRule (PrometheusRule.Spec promRule) <> [] ->
  exists resp a',
    validatePrometheusRules ar (Admission.mk (Some e) (Some t) l)
    = Returns resp a'
    /\ Admission.logger a'
       = (l ++ [ {| level := DebugLevel;
                    keyvals := [("msg", "Validating prometheusrules")] |};
                 {| level := DebugLevel;
                    keyvals :=
                      [("msg", "Invalid rule");
                       ("content",
                        fmtPrometheusRuleSpec (PrometheusRule.Spec promRule))] |} ]
            ++ map (fun err =>
                      {| level := InfoLevel;
                         keyvals := [("msg", "Invalid rule"); ("err", Error err)] |})
                 (ValidateRule (PrometheusRule.Spec promRule)))%list.
Proof.
  intros Hreq Hres Hobj Herrs. unfold validatePrometheusRules.
  rewrite Hreq. run. rewrite decide_False by (by intros []). rewrite Hobj.
  rewrite decide_True by (by destruct (ValidateRule _)). run.
  pose proof (logInvalidRule_returns
                (ValidateRule (PrometheusRule.Spec promRule))) as Hlog.
  unfold mbind, mret, M_bind, M_ret in Hlog. rewrite Hlog. simpl.
  eexists _, _. split; [reflexivity|]. simpl. by rewrite <- !app_assoc.
Qed.

(** ** The transport, path by path *)

Lemma length_nonempty (body : string) : body <> "" -> String.length body <> 0.
Proof. by destruct body. Qed.

(** [http.Error] on a writer that has sent nothing yet and does not fail. *)
Lemma http_Error_untouched w msg code :
  ResponseWriter.status w = None ->
  ResponseWriter.failure w = None ->
  http_Error w msg code
  = {| ResponseWriter.status := Some code;
       ResponseWriter.written :=
         ResponseWriter.written w ++ msg ++ String (Ascii.ascii_of_nat 10) "";
       ResponseWriter.failure := None |}.
Proof.
  intros Hstatus Hfailure.
  unfold http_Error, ResponseWriter.Write, ResponseWriter.WriteHeader.
  rewrite Hstatus. simpl. by rewrite Hfailure.
Qed.

(** X1: a request with no body, with a body that cannot be read to its end,
    or with a body of zero bytes is answered 400 with the text request has no
    body; what was read before a read error is thrown away, the body is
    neither decoded nor handed to the admission function, and the counters
    stay as they are. *)
Theorem no_body_is_a_bad_request w r admitFn a :
  ResponseWriter.status w = None ->
  ResponseWriter.failure w = None ->
  match Request.Body r with
  | Some (data, None) => data = ""
  | _ => True
  end ->
  serveAdmission w r admitFn a
  = Returns
      {| ResponseWriter.status := Some 400%Z;
         ResponseWriter.written :=
           ResponseWriter.written w ++ "request has no body"
           ++ String (Ascii.ascii_of_nat 10) "";
         ResponseWriter.failure := None |}
      (logged a [ {| level := WarnLevel;
                     keyvals := [("msg", "request has no body")] |} ]).
Proof.
  intros Hstatus Hfailure Hbody. unfold serveAdmission.
  assert (Hempty :
    match Request.Body r with
    | Some (data, None) => data
    | _ => ""
    end = "").
  { destruct (Request.Body r) as [[data [err|]]|]; done. }
  rewrite Hempty. rewrite decide_True by done.
  rewrite run_seq. unfold mret, M_ret.
  by rewrite http_Error_untouched.
Qed.

(** X2: a request with a body whose Content-Type is anything but
    application/json, a missing header included, is answered 415; the body is
    neither decoded nor handed to the admission function, and the counters
    stay as they are. *)
Theorem other_content_types_are_unsupported w r admitFn a body :
  ResponseWriter.status w = None ->
  ResponseWriter.failure w = None ->
  Request.Body r = Some (body, None) ->
  body <> "" ->
  Header_Get (Request.Header r) "Content-Type" <> "application/json" ->
  serveAdmission w r admitFn a
  = Returns
      {| ResponseWriter.status := Some 415%Z;
         ResponseWriter.written :=
           ResponseWriter.written w
           ++ "invalid Content-Type, want `application/json`"
           ++ String (Ascii.ascii_of_nat 10) "";
         ResponseWriter.failure := None |}
      (logged a
         [ {| level := WarnLevel;
              keyvals :=
                [("msg",
                  "invalid Content-Type "
                  ++ Header_Get (Request.Header r) "Content-Type"
                  ++ ", want `application/json`")] |} ]).
Proof.
  intros Hstatus Hfailure Hbody Hne Htype. unfold serveAdmission.
  rewrite Hbody. rewrite decide_False by by apply length_nonempty.
  cbv zeta. rewrite decide_True by done.
  rewrite run_seq. unfold mret, M_ret.
  by rewrite http_Error_untouched.
Qed.

(** X3: when the body does not decode, the admission function is not called:
    the outcome of the handler is the same for any two admission functions.  *)
Theorem decode_failure_skips_the_admission_function
    w r admit1 admit2 a body requested err :
  Request.Body r = Some (body, None) ->
  Decode body AdmissionReview.zero = (requested, Some err) ->
  serveAdmission w r admit1 a = serveAdmission w r admit2 a.
Proof.
  intros Hbody Hdec. unfold serveAdmission. rewrite Hbody.
  destruct (decide _); [done|]. cbv zeta.
  destruct (decide _); [done|].
  by rewrite Hdec.
Qed.

(** X4: when the decoder reports an error but has put a request into the
    envelope, the handler answers 200 with the serialized envelope of a
    rejection: allowed=false, the message Unable to deserialize request, the
    decoding error as the only cause, under the kind, version and UID of the
    request envelope. *)
Theorem decode_failure_with_a_request_is_answered
    w r admitFn a body requested request err respBytes :
  Request.Body r = Some (body, None) ->
  body <> "" ->
  Header_Get (Request.Header r) "Content-Type" = "application/json" ->
  Decode body AdmissionReview.zero = (requested, Some err) ->
  AdmissionReview.Request requested = Some request ->
  Marshal
    {| AdmissionReview.Kind := AdmissionReview.Kind requested;
       AdmissionReview.APIVersion := AdmissionReview.APIVersion requested;
       AdmissionReview.Request := None;
       AdmissionReview.Response := Some
         {| AdmissionResponse.UID := AdmissionRequest.UID request;
            AdmissionResponse.Allowed := false;
            AdmissionResponse.Result := Some
              {| Status.Status := "Failure";
                 Status.Message := "Unable to deserialize request";
                 Status.Reason := "Invalid";
                 Status.Details := Some
                   {| StatusDetails.Name := "prometheusrules";
                      StatusDetails.Causes :=
                        [ {| StatusCause.Message := Error err |} ] |};
                 Status.Code := 422 |};
            AdmissionResponse.Patch := None;
            AdmissionResponse.PatchType := None |} |}
  = (respBytes, None) ->
  ResponseWriter.status w = None ->
  ResponseWriter.failure w = None ->
  exists entries,
    serveAdmission w r admitFn a
    = Returns
        {| ResponseWriter.status := Some 200%Z;
           ResponseWriter.written := ResponseWriter.written w ++ respBytes;
           ResponseWriter.failure := None |}
        (logged a entries).
Proof.
  intros Hbody Hne Htype Hdec Hreq Hmarshal Hstatus Hfailure.
  by apply (serveAdmission_decode_failure_answered w r admitFn a body Hbody
              (length_nonempty body Hne) Htype requested request err respBytes).
Qed.

(** X5: when the envelope decodes with a request and the admission function
    returns a response, the handler answers 200 with the serialization of an
    envelope that has the kind and version of the request envelope, no
    request, and the response of the admission function with its UID
    replaced by the UID of the request and nothing else changed. *)
Theorem admitted_response_is_echoed
    w r admitFn a body requested request response a' respBytes :
  Request.Body r = Some (body, None) ->
  body <> "" ->
  Header_Get (Request.Header r) "Content-Type" = "application/json" ->
  Decode body AdmissionReview.zero = (requested, None) ->
  AdmissionReview.Request requested = Some request ->
  admitFn requested (logged a [received body]) = Returns (Some response) a' ->
  Marshal
    {| AdmissionReview.Kind := AdmissionReview.Kind requested;
       AdmissionReview.APIVersion := AdmissionReview.APIVersion requested;
       AdmissionReview.Request := None;
       AdmissionReview.Response := Some
         {| AdmissionResponse.UID := AdmissionRequest.UID request;
            AdmissionResponse.Allowed := AdmissionResponse.Allowed response;
            AdmissionResponse.Result := AdmissionResponse.Result response;
            AdmissionResponse.Patch := AdmissionResponse.Patch response;
            AdmissionResponse.PatchType := AdmissionResponse.PatchType response |} |}
  = (respBytes, None) ->
  ResponseWriter.status w = None ->
  ResponseWriter.failure w = None ->
  serveAdmission w r admitFn a
  = Returns
      {| ResponseWriter.status := Some 200%Z;
         ResponseWriter.written := ResponseWriter.written w ++ respBytes;
         ResponseWriter.failure := None |}
      (logged a'
         [ {| level := DebugLevel;
              keyvals := [("msg", "sending response"); ("content", respBytes)] |} ]).
Proof.
  intros Hbody Hne Htype Hdec Hreq Hadmit Hmarshal Hstatus Hfailure.
  unfold serveAdmission. rewrite Hbody.
  rewrite decide_False by by apply length_nonempty.
  rewrite Htype. rewrite decide_False by (by intros []).
  rewrite Hdec. rewrite run_seq, run_bind. fold (received body).
  rewrite Hadmit, Hreq. unfold AdmissionResponse.set_UID.
  rewrite Hmarshal. rewrite run_seq, run_bind.
  unfold mret, M_ret, ResponseWriter.Write, ResponseWriter.WriteHeader.
  rewrite Hstatus. simpl. by rewrite Hfailure.
Qed.

(** X6: when the response envelope does not serialize, the handler answers
    500 with the text could not serialize response and the error, logs the
    failure at error level, and does not stop there: it goes on to write the
    bytes the serializer returned after the error text. *)
Theorem marshal_failure_is_an_internal_error
    w r admitFn a body requested request response a' respBytes err :
  Request.Body r = Some (body, None) ->
  body <> "" ->
  Header_Get (Request.Header r) "Content-Type" = "application/json" ->
  Decode body AdmissionReview.zero = (requested, None) ->
  AdmissionReview.Request requested = Some request ->
  admitFn requested (logged a [received body]) = Returns (Some response) a' ->
  Marshal (echo requested request response) = (respBytes, Some err) ->
  ResponseWriter.status w = None ->
  ResponseWriter.failure w = None ->
  serveAdmission w r admitFn a
  = Returns
      {| ResponseWriter.status := Some 500%Z;
         ResponseWriter.written :=
           (ResponseWriter.written w
            ++ ("could not serialize response: " ++ Error err)
            ++ String (Ascii.ascii_of_nat 10) "")
           ++ respBytes;
         ResponseWriter.failure := None |}
      (logged a'
         [ {| level := DebugLevel;
              keyvals := [("msg", "sending response"); ("content", respBytes)] |};
           {| level := ErrorLevel;
              keyvals :=
                [("msg", "Cannot serialize response"); ("err", Error err)] |} ]).
Proof.
  intros Hbody Hne Htype Hdec Hreq Hadmit Hmarshal Hstatus Hfailure.
  unfold serveAdmission. rewrite Hbody.
  rewrite decide_False by by apply length_nonempty.
  rewrite Htype. rewrite decide_False by (by intros []).
  rewrite Hdec. rewrite run_seq, run_bind. fold (received body).
  rewrite Hadmit, Hreq. fold (echo requested request response).
  rewrite Hmarshal. rewrite run_seq, run_bind, run_seq.
  unfold mret, M_ret. rewrite http_Error_untouched by done.
  unfold ResponseWriter.Write, ResponseWriter.WriteHeader. simpl.
  unfold logged. simpl. by rewrite <- !app_assoc.
Qed.

(** X14: the validate route end to end.  A JSON request that decodes with a
    request, on a receiver with both counters registered, is answered 200
    with the serialized envelope of the decision, allowance or rejection
    alike; the call is counted, and a rejection is counted as an error. *)
Theorem validate_route_serves_the_decision
    w r body requested request respBytes e t l :
  Request.Body r = Some (body, None) ->
  body <> "" ->
  Header_Get (Request.Header r) "Content-Type" = "application/json" ->
  Decode body AdmissionReview.zero = (requested, None) ->
  AdmissionReview.Request requested = Some request ->
  Marshal (echo requested request (validateDecision request))
  = (respBytes, None) ->
  ResponseWriter.status w = None ->
  ResponseWriter.failure w = None ->
  exists entries,
    servePrometheusRulesValidate w r (Admission.mk (Some e) (Some t) l)
    = Returns
        {| ResponseWriter.status := Some 200%Z;
           ResponseWriter.written := ResponseWriter.written w ++ respBytes;
           ResponseWriter.failure := None |}
        (Admission.mk
           (Some (if AdmissionResponse.Allowed (validateDecision request)
                  then e else S e))
           (Some (S t)) (l ++ entries)).
Proof.
  intros Hbody Hne Htype Hdec Hreq Hmarshal Hstatus Hfailure.
  destruct (validate_registered requested request e t
              (l ++ [received body]) Hreq) as [entries Hrun].
  destruct (serveAdmission_admitted w r validatePrometheusRules
              (Admission.mk (Some e) (Some t) l) body Hbody
              (length_nonempty body Hne) Htype requested request
              (validateDecision request) _ respBytes Hdec Hreq Hrun Hmarshal
              Hstatus Hfailure) as [entries' Hserve].
  unfold servePrometheusRulesValidate. rewrite Hserve.
  eexists. unfold logged. simpl. by rewrite <- !app_assoc.
Qed.

(** X17: the mutate route never changes a counter.  Whatever the request,
    the writer and the collaborators, if the route returns at all, both
    counters are as they were and the log has grown by at least one entry. *)
Theorem mutate_route_keeps_the_counters w r a w' a' :
  servePrometheusRulesMutate w r a = Returns w' a' ->
  Admission.validationTriggeredCounter a'
  = Admission.validationTriggeredCounter a
  /\ Admission.validationErrorsCounter a'
     = Admission.validationErrorsCounter a
  /\ exists entries,
       Admission.logger a' = (Admission.logger a ++ entries)%list
       /\ entries <> [].
Proof.
  assert (Hdone : forall (x : ResponseWriter.t) entries,
    entries <> [] ->
    Returns x (logged a entries) = Returns w' a' ->
    Admission.validationTriggeredCounter a'
    = Admission.validationTriggeredCounter a
    /\ Admission.validationErrorsCounter a'
       = Admission.validationErrorsCounter a
    /\ exists entries,
         Admission.logger a' = (Admission.logger a ++ entries)%list
         /\ entries <> []).
  { intros x entries Hne [= _ <-]. simpl. eauto. }
  unfold servePrometheusRulesMutate, serveAdmission.
  destruct (decide _); [rewrite run_seq; by apply Hdone|]. cbv zeta.
  destruct (decide _); [rewrite run_seq; by apply Hdone|].
  destruct (Decode _ _) as [requested [err|]].
  - rewrite run_seq, run_bind, run_seq. unfold mret at 1. unfold M_ret at 1.
    destruct (AdmissionReview.Request requested) as [request|]; [|done].
    destruct (Marshal _) as [respBytes [merr|]].
    + rewrite run_seq, run_bind, run_seq. unfold mret at 1. unfold M_ret at 1.
      destruct (ResponseWriter.Write _ _) as [w1 [werr|]].
      * rewrite run_seq. unfold logged. simpl. rewrite <- !app_assoc.
        by apply (Hdone _ (_ :: _)).
      * unfold logged. simpl. rewrite <- !app_assoc.
        by apply (Hdone _ (_ :: _)).
    + rewrite run_seq, run_bind. unfold mret at 1. unfold M_ret at 1.
      destruct (ResponseWriter.Write _ _) as [w1 [werr|]].
      * rewrite run_seq. unfold logged. simpl. rewrite <- !app_assoc.
        by apply (Hdone _ (_ :: _)).
      * unfold logged. simpl. rewrite <- !app_assoc.
        by apply (Hdone _ (_ :: _)).
  - rewrite run_seq, run_bind.
    destruct (AdmissionReview.Request requested) as [request|] eqn:Hreq;
      [|by unfold mutatePrometheusRules; rewrite Hreq].
    match goal with
    | |- context [mutatePrometheusRules requested ?st] =>
        destruct (mutate_returns requested request st Hreq)
          as (entries & _ & Hrun);
        rewrite Hrun
    end.
    destruct (Marshal _) as [respBytes [merr|]].
    + rewrite run_seq, run_bind, run_seq. unfold mret at 1. unfold M_ret at 1.
      destruct (ResponseWriter.Write _ _) as [w1 [werr|]].
      * rewrite run_seq. unfold logged. simpl. rewrite <- !app_assoc.
        by apply (Hdone _ (_ :: _)).
      * unfold logged. simpl. rewrite <- !app_assoc.
        by apply (Hdone _ (_ :: _)).
    + rewrite run_seq, run_bind. unfold mret at 1. unfold M_ret at 1.
      destruct (ResponseWriter.Write _ _) as [w1 [werr|]].
      * rewrite run_seq. unfold logged. simpl. rewrite <- !app_assoc.
        by apply (Hdone _ (_ :: _)).
      * unfold logged. simpl. rewrite <- !app_assoc.
        by apply (Hdone _ (_ :: _)).
Qed.

(** The handler changes the receiver only through the admission function
    and the log: when it returns, either the admission function was not
    called and the receiver has only new log entries, or it was called once,
    on the decoded envelope, and the receiver is the one it left, with new
    log entries. *)
Lemma serveAdmission_frame w r admitFn a w' a' :
  serveAdmission w r admitFn a = Returns w' a' ->
  (exists entries, a' = logged a entries)
  \/ (exists requested entry response a1 entries,
        admitFn requested (logged a [entry]) = Returns response a1
        /\ a' = logged a1 entries).
Proof.
  unfold serveAdmission.
  destruct (decide _); [rewrite run_seq; intros [= _ <-]; eauto|]. cbv zeta.
  destruct (decide _); [rewrite run_seq; intros [= _ <-]; eauto|].
  destruct (Decode _ _) as [requested [err|]].
  - rewrite run_seq, run_bind, run_seq. unfold mret at 1. unfold M_ret at 1.
    destruct (AdmissionReview.Request requested) as [request|]; [|done].
    destruct (Marshal _) as [respBytes [merr|]].
    + rewrite run_seq, run_bind, run_seq. unfold mret at 1. unfold M_ret at 1.
      destruct (ResponseWriter.Write _ _) as [w1 [werr|]].
      * rewrite run_seq. intros [= _ <-]. left.
        eexists. unfold logged. simpl. by rewrite <- !app_assoc.
      * intros [= _ <-]. left.
        eexists. unfold logged. simpl. by rewrite <- !app_assoc.
    + rewrite run_seq, run_bind. unfold mret at 1. unfold M_ret at 1.
      destruct (ResponseWriter.Write _ _) as [w1 [werr|]].
      * rewrite run_seq. intros [= _ <-]. left.
        eexists. unfold logged. simpl. by rewrite <- !app_assoc.
      * intros [= _ <-]. left.
        eexists. unfold logged. simpl. by rewrite <- !app_assoc.
  - rewrite run_seq, run_bind.
    destruct (admitFn requested _) as [[response|] a1|reason] eqn:Hadmit;
      [|done..].
    destruct (AdmissionReview.Request requested) as [request|]; [|done].
    destruct (Marshal _) as [respBytes [merr|]].
    + rewrite run_seq, run_bind, run_seq. unfold mret at 1. unfold M_ret at 1.
      destruct (ResponseWriter.Write _ _) as [w1 [werr|]].
      * rewrite run_seq. intros [= _ <-]. right.
        eexists _, _, _, _, _. split; [exact Hadmit|].
        unfold logged. simpl. by rewrite <- !app_assoc.
      * intros [= _ <-]. right.
        eexists _, _, _, _, _. split; [exact Hadmit|].
        unfold logged. simpl. by rewrite <- !app_assoc.
    + rewrite run_seq, run_bind. unfold mret at 1. unfold M_ret at 1.
      destruct (ResponseWriter.Write _ _) as [w1 [werr|]].
      * rewrite run_seq. intros [= _ <-]. right.
        eexists _, _, _, _, _. split; [exact Hadmit|].
        unfold logged. simpl. by rewrite <- !app_assoc.
      * intros [= _ <-]. right.
        eexists _, _, _, _, _. split; [exact Hadmit|]. reflexivity.
Qed.

(** Whenever [validatePrometheusRules] returns, the triggered counter was
    registered and has grown by one, and the errors counter is as it was or
    has grown by one. *)
Lemma validate_frame ar a resp a' :
  validatePrometheusRules ar a = Returns resp a' ->
  exists t,
    Admission.validationTriggeredCounter a = Some t
    /\ Admission.validationTriggeredCounter a' = Some (S t)
    /\ (Admission.validationErrorsCounter a'
        = Admission.validationErrorsCounter a
        \/ exists e,
             Admission.validationErrorsCounter a = Some e
             /\ Admission.validationErrorsCounter a' = Some (S e)).
Proof.
  destruct a as [e [t|] l]; [|done].
  unfold validatePrometheusRules. run.
  destruct (AdmissionReview.Request ar) as [request|]; [|done].
  destruct (decide _).
  - run. destruct e as [e|]; [|done]. intros [= _ <-]. simpl. eauto 10.
  - destruct (UnmarshalPrometheusRule _) as [err|promRule]; run.
    + destruct e as [e|]; [|done]. intros [= _ <-]. simpl. eauto 10.
    + destruct (decide _).
      * run. pose proof (logInvalidRule_returns
                           (ValidateRule (PrometheusRule.Spec promRule)))
          as Hlog.
        unfold mbind, mret, M_bind, M_ret in Hlog. rewrite Hlog. simpl.
        destruct e as [e|]; [|done]. intros [= _ <-]. simpl. eauto 10.
      * intros [= _ <-]. simpl. eauto 10.
Qed.

(** X18: the validate route counts a request at most once, and only when it
    reaches the validate function.  Whenever the route returns, either both
    counters are as they were (the request was turned away by the transport,
    or did not decode), or the triggered counter has grown by exactly one and
    the errors counter by at most one. *)
Theorem validate_route_counts_at_most_once w r a w' a' :
  servePrometheusRulesValidate w r a = Returns w' a' ->
  (Admission.validationTriggeredCounter a'
   = Admission.validationTriggeredCounter a
   /\ Admission.validationErrorsCounter a'
      = Admission.validationErrorsCounter a)
  \/ (exists t,
        Admission.validationTriggeredCounter a = Some t
        /\ Admission.validationTriggeredCounter a' = Some (S t)
        /\ (Admission.validationErrorsCounter a'
            = Admission.validationErrorsCounter a
            \/ exists e,
                 Admission.validationErrorsCounter a = Some e
                 /\ Admission.validationErrorsCounter a' = Some (S e))).
Proof.
  intros [(entries & ->)|(requested & entry & response & a1 & entries & Hrun & ->)]
    %serveAdmission_frame.
  - by left.
  - right. apply validate_frame in Hrun. exact Hrun.
Qed.

(** X19: the counters given to [RegisterMetrics] are the ones validate
    counts with, each in its role: on a receiver made by [New] and registered
    with a triggered counter at t and an errors counter at e, a call of
    validate leaves the triggered counter at t+1 and the errors counter at e,
    or at e+1 if it rejects; the logger given to [New] is the one written
    to. *)
Theorem registered_counters_are_the_ones_counted ar request t e l :
  AdmissionReview.Request ar = Some request ->
  exists resp entries,
    validatePrometheusRules ar (RegisterMetrics (Some t) (Some e) (New l))
    = Returns (Some resp)
        (RegisterMetrics (Some (S t))
           (Some (if AdmissionResponse.Allowed resp then e else S e))
           (New (l ++ entries))).
Proof.
  intros Hreq.
  destruct (validate_registered ar request e t l Hreq) as [entries Hrun].
  exists (validateDecision request), entries. exact Hrun.
Qed.

(** X20: when writing the response fails, the handler logs the failure at
    error level with the writer's error, after the entry for the response it
    meant to send, and returns; the receiver is otherwise as the admission
    function left it. *)
Theorem write_failure_is_logged
    w r admitFn a body requested request response a' respBytes werr :
  Request.Body r = Some (body, None) ->
  body <> "" ->
  Header_Get (Request.Header r) "Content-Type" = "application/json" ->
  Decode body AdmissionReview.zero = (requested, None) ->
  AdmissionReview.Request requested = Some request ->
  admitFn requested (logged a [received body]) = Returns (Some response) a' ->
  Marshal (echo requested request response) = (respBytes, None) ->
  ResponseWriter.failure w = Some werr ->
  exists w',
    serveAdmission w r admitFn a
    = Returns w'
        (logged a'
           [ {| level := DebugLevel;
                keyvals := [("msg", "sending response"); ("content", respBytes)] |};
             {| level := ErrorLevel;
                keyvals :=
                  [("msg", "Cannot write response"); ("err", Error werr)] |} ]).
Proof.
  intros Hbody Hne Htype Hdec Hreq Hadmit Hmarshal Hfailure.
  unfold serveAdmission. rewrite Hbody.
  rewrite decide_False by by apply length_nonempty.
  rewrite Htype. rewrite decide_False by (by intros []).
  rewrite Hdec. rewrite run_seq, run_bind. fold (received body).
  rewrite Hadmit, Hreq. fold (echo requested request response).
  rewrite Hmarshal. rewrite run_seq, run_bind.
  unfold mret at 1. unfold M_ret at 1.
  assert (Hwrite : exists w1, ResponseWriter.Write respBytes w = (w1, Some werr)).
  { unfold ResponseWriter.Write, ResponseWriter.WriteHeader.
    destruct (ResponseWriter.status w); simpl; rewrite Hfailure; by eexists. }
  destruct Hwrite as [w1 ->]. rewrite run_seq. unfold mret, M_ret.
  eexists. f_equal. unfold logged. simpl. by rewrite <- !app_assoc.
Qed.

End Coverage.

(** ** The further properties on the sample deployments *)

Section SampleCoverage.
Local Existing Instance Sample.collaborators.

Lemma no_body_is_a_bad_request_witness :
  serveAdmission ResponseWriter.fresh Faulty.truncatedPost
    validatePrometheusRules (New [])
  = Returns
      {| ResponseWriter.status := Some 400%Z;
         ResponseWriter.written :=
           "request has no body" ++ String (Ascii.ascii_of_nat 10) "";
         ResponseWriter.failure := None |}
      (New [ {| level := WarnLevel;
                keyvals := [("msg", "request has no body")] |} ]).
Proof.
  exact (no_body_is_a_bad_request ResponseWriter.fresh Faulty.truncatedPost
           validatePrometheusRules (New []) eq_refl eq_refl I).
Defined.

Lemma other_content_types_are_unsupported_witness :
  serveAdmission ResponseWriter.fresh Faulty.untypedPost
    validatePrometheusRules (New [])
  = Returns
      {| ResponseWriter.status := Some 415%Z;
         ResponseWriter.written :=
           "invalid Content-Type, want `application/json`"
           ++ String (Ascii.ascii_of_nat 10) "";
         ResponseWriter.failure := None |}
      (New [ {| level := WarnLevel;
                keyvals :=
                  [("msg", "invalid Content-Type , want `application/json`")] |} ]).
Proof.
  exact (other_content_types_are_unsupported ResponseWriter.fresh
           Faulty.untypedPost validatePrometheusRules (New [])
           Sample.fullBody eq_refl eq_refl eq_refl
           ltac:(discriminate) ltac:(discriminate)).
Defined.

Lemma admitted_response_is_echoed_witness :
  exists a',
    serveAdmission ResponseWriter.fresh (Sample.post Sample.fullBody)
      mutatePrometheusRules (New [])
    = Returns
        {| ResponseWriter.status := Some 200%Z;
           ResponseWriter.written :=
             lit "{'kind':'AdmissionReview','apiVersion':'admission.k8s.io/v1','response':{'uid':'705ab4f5-6393-11e8-b7cc-42010a800002','allowed':true}}";
           ResponseWriter.failure := None |}
        a'.
Proof.
  eexists.
  exact (admitted_response_is_echoed ResponseWriter.fresh
           (Sample.post Sample.fullBody) mutatePrometheusRules (New [])
           Sample.fullBody Sample.plainReview
           (Sample.request ruleResource "plain")
           (mutateDecision (Sample.request ruleResource "plain")) _ _
           eq_refl ltac:(discriminate) eq_refl eq_refl eq_refl eq_refl
           eq_refl eq_refl eq_refl).
Defined.

Lemma validate_counts_calls_and_rejections_witness :
  (exists resp entries,
     validatePrometheusRules Sample.brokenReview
       (Admission.mk (Some 4) (Some 9) [])
     = Returns (Some resp)
         (Admission.mk
            (Some (if AdmissionResponse.Allowed resp then 4 else 5))
            (Some 10) entries))
  /\ (exists resp entries,
        validatePrometheusRules Sample.plainReview
          (Admission.mk (Some 4) (Some 9) [])
        = Returns (Some resp)
            (Admission.mk
               (Some (if AdmissionResponse.Allowed resp then 4 else 5))
               (Some 10) entries)).
Proof.
  split.
  - exact (validate_counts_calls_and_rejections Sample.brokenReview
             (Sample.request ruleResource "broken") 4 9 [] eq_refl).
  - exact (validate_counts_calls_and_rejections Sample.plainReview
             (Sample.request ruleResource "plain") 4 9 [] eq_refl).
Defined.

Lemma mutate_keeps_the_counters_witness :
  exists resp a',
    mutatePrometheusRules Sample.plainReview (New []) = Returns (Some resp) a'
    /\ Admission.validationTriggeredCounter a' = None
    /\ Admission.validationErrorsCounter a' = None
    /\ exists entries, Admission.logger a' = entries.
Proof.
  exact (mutate_keeps_the_counters Sample.plainReview
           (Sample.request ruleResource "plain") (New []) eq_refl).
Defined.

Lemma mutate_rejects_unreadable_object_witness :
  exists resp a',
    mutatePrometheusRules Faulty.unreadableReview (New [])
    = Returns (Some resp) a'
    /\ AdmissionResponse.Allowed resp = false
    /\ Status.Message <$> AdmissionResponse.Result resp
       = Some "Cannot unmarshal admission request"
    /\ causesOf resp
       = [ {| StatusCause.Message := "unexpected end of JSON input" |} ]
    /\ AdmissionResponse.Patch resp = None
    /\ AdmissionResponse.PatchType resp = None.
Proof.
  exact (mutate_rejects_unreadable_object Faulty.unreadableReview
           (Sample.request ruleResource "{")
           (mkError "unexpected end of JSON input") (New [])
           eq_refl eq_refl eq_refl).
Defined.

Lemma validate_rejects_unreadable_object_witness :
  exists resp entries,
    validatePrometheusRules Faulty.unreadableReview
      (Admission.mk (Some 0) (Some 0) [])
    = Returns (Some resp) (Admission.mk (Some 1) (Some 1) entries)
    /\ AdmissionResponse.Allowed resp = false
    /\ Status.Message <$> AdmissionResponse.Result resp
       = Some "Cannot unmarshal rules from spec"
    /\ causesOf resp
       = [ {| StatusCause.Message := "unexpected end of JSON input" |} ]
    /\ AdmissionResponse.Patch resp = None.
Proof.
  exact (validate_rejects_unreadable_object Faulty.unreadableReview
           (Sample.request ruleResource "{")
           (mkError "unexpected end of JSON input") 0 0 []
           eq_refl eq_refl eq_refl).
Defined.

Lemma responses_are_well_formed_witness :
  (exists resp a',
     mutatePrometheusRules Sample.plainReview Sample.admission
     = Returns (Some resp) a'
     /\ wellFormed resp
     /\ AdmissionResponse.UID resp = ""
     /\ (AdmissionResponse.Allowed resp = true ->
         AdmissionResponse.PatchType resp = Some PatchTypeJSONPatch
         /\ is_Some (AdmissionResponse.Patch resp)))
  /\ (exists resp a',
        validatePrometheusRules Sample.brokenReview Sample.admission
        = Returns (Some resp) a'
        /\ wellFormed resp
        /\ AdmissionResponse.UID resp = ""
        /\ AdmissionResponse.Patch resp = None
        /\ AdmissionResponse.PatchType resp = None).
Proof.
  split.
  - exact (proj1 (responses_are_well_formed Sample.plainReview
                    (Sample.request ruleResource "plain") Sample.admission
                    eq_refl)).
  - exact (proj2 (responses_are_well_formed Sample.brokenReview
                    (Sample.request ruleResource "broken") Sample.admission
                    eq_refl) registered_sample).
Defined.

Lemma validate_without_errors_counter_witness :
  (exists entries,
     validatePrometheusRules Sample.plainReview (Admission.mk None (Some 0) [])
     = Returns (Some (AdmissionResponse.new true))
         (Admission.mk None (Some 1) entries))
  /\ validatePrometheusRules Sample.brokenReview (Admission.mk None (Some 0) [])
     = Panics nilDereference.
Proof.
  split.
  - exact (proj1 (validate_without_errors_counter Sample.plainReview
                    (Sample.request ruleResource "plain") 0 [] eq_refl)
             eq_refl).
  - exact (proj2 (validate_without_errors_counter Sample.brokenReview
                    (Sample.request ruleResource "broken") 0 [] eq_refl)
             eq_refl).
Defined.

Lemma validate_route_serves_the_decision_witness :
  exists entries,
    servePrometheusRulesValidate ResponseWriter.fresh
      (Sample.post Sample.fullBody) (Admission.mk (Some 0) (Some 0) [])
    = Returns
        {| ResponseWriter.status := Some 200%Z;
           ResponseWriter.written :=
             lit "{'kind':'AdmissionReview','apiVersion':'admission.k8s.io/v1','response':{'uid':'705ab4f5-6393-11e8-b7cc-42010a800002','allowed':true}}";
           ResponseWriter.failure := None |}
        (Admission.mk (Some 0) (Some 1) entries).
Proof.
  exact (validate_route_serves_the_decision ResponseWriter.fresh
           (Sample.post Sample.fullBody) Sample.fullBody Sample.plainReview
           (Sample.request ruleResource "plain") _ 0 0 []
           eq_refl ltac:(discriminate) eq_refl eq_refl eq_refl eq_refl
           eq_refl eq_refl).
Defined.

Lemma mutate_patch_text_witness :
  (exists resp a',
     mutatePrometheusRules Sample.plainReview (New []) = Returns (Some resp) a'
     /\ AdmissionResponse.Patch resp
        = Some ("[" ++ Sample.labelPatch ++ "," ++ addFirstAnnotationPatch
                ++ "]"))
  /\ (exists resp a',
        mutatePrometheusRules Sample.annotatedReview (New [])
        = Returns (Some resp) a'
        /\ AdmissionResponse.Patch resp
           = Some ("[" ++ Sample.labelPatch ++ ","
                   ++ addAdditionalAnnotationPatch ++ "]")).
Proof.
  split.
  - exact (mutate_patch_text Sample.plainReview
             (Sample.request ruleResource "plain")
             {| PrometheusRules.Annotations := ∅;
                PrometheusRules.Spec := {| RawExtension.Raw := "groups" |} |}
             [Sample.labelPatch] (New []) eq_refl eq_refl eq_refl eq_refl).
  - exact (mutate_patch_text Sample.annotatedReview
             (Sample.request ruleResource "annotated")
             {| PrometheusRules.Annotations := {[ "team" := "infra" ]};
                PrometheusRules.Spec := {| RawExtension.Raw := "groups" |} |}
             [Sample.labelPatch] (New []) eq_refl eq_refl eq_refl eq_refl).
Defined.

Lemma validate_logs_every_error_witness :
  exists resp a',
    validatePrometheusRules Sample.brokenReview
      (Admission.mk (Some 0) (Some 0) [])
    = Returns resp a'
    /\ Admission.logger a'
       = [ {| level := DebugLevel;
              keyvals := [("msg", "Validating prometheusrules")] |};
           {| level := DebugLevel;
              keyvals := [("msg", "Invalid rule"); ("content", "first up last")] |};
           {| level := InfoLevel;
              keyvals := [("msg", "Invalid rule");
                          ("err", "rule first has no expression")] |};
           {| level := InfoLevel;
              keyvals := [("msg", "Invalid rule");
                          ("err", "rule last has no expression")] |} ].
Proof.
  exact (validate_logs_every_error (deps := Sample.collaborators)
           Sample.brokenReview (Sample.request ruleResource "broken")
           (PrometheusRule.mk
              ([("first", ""); ("up", "up == 1"); ("last", "")] : Sample.RuleSpec))
           0 0 [] eq_refl eq_refl eq_refl ltac:(discriminate)).
Defined.

Lemma mutate_route_keeps_the_counters_witness :
  exists w' a',
    servePrometheusRulesMutate ResponseWriter.fresh
      (Sample.post Sample.fullBody) (Admission.mk (Some 3) None []) = Returns w' a'
    /\ Admission.validationTriggeredCounter a' = None
    /\ Admission.validationErrorsCounter a' = Some 3
    /\ exists entries, Admission.logger a' = entries /\ entries <> [].
Proof.
  destruct (servePrometheusRulesMutate ResponseWriter.fresh
              (Sample.post Sample.fullBody) (Admission.mk (Some 3) None []))
    as [w' a'|reason] eqn:Hrun; [|vm_compute in Hrun; discriminate].
  exists w', a'. split; [reflexivity|].
  exact (mutate_route_keeps_the_counters _ _ _ _ _ Hrun).
Defined.

Lemma validate_route_counts_at_most_once_witness :
  exists w' a',
    servePrometheusRulesValidate ResponseWriter.fresh
      (Sample.post Sample.fullBody) (Admission.mk (Some 3) (Some 7) [])
    = Returns w' a'
    /\ ((Admission.validationTriggeredCounter a' = Some 7
         /\ Admission.validationErrorsCounter a' = Some 3)
        \/ (exists t,
              Some 7 = Some t
              /\ Admission.validationTriggeredCounter a' = Some (S t)
              /\ (Admission.validationErrorsCounter a' = Some 3
                  \/ exists e,
                       Some 3 = Some e
                       /\ Admission.validationErrorsCounter a' = Some (S e)))).
Proof.
  destruct (servePrometheusRulesValidate ResponseWriter.fresh
              (Sample.post Sample.fullBody) (Admission.mk (Some 3) (Some 7) []))
    as [w' a'|reason] eqn:Hrun; [|vm_compute in Hrun; discriminate].
  exists w', a'. split; [reflexivity|].
  exact (validate_route_counts_at_most_once _ _ _ _ _ Hrun).
Defined.

Lemma registered_counters_are_the_ones_counted_witness :
  exists resp entries,
    validatePrometheusRules Sample.brokenReview
      (RegisterMetrics (Some 9) (Some 4) (New []))
    = Returns (Some resp)
        (RegisterMetrics (Some 10)
           (Some (if AdmissionResponse.Allowed resp then 4 else 5))
           (New entries)).
Proof.
  exact (registered_counters_are_the_ones_counted Sample.brokenReview
           (Sample.request ruleResource "broken") 9 4 [] eq_refl).
Defined.

Lemma write_failure_is_logged_witness :
  exists w' entries,
    serveAdmission
      {| ResponseWriter.status := None; ResponseWriter.written := "";
         ResponseWriter.failure := Some (mkError "write: broken pipe") |}
      (Sample.post Sample.fullBody) requireRequest (New [])
    = Returns w'
        (New (received Sample.fullBody :: entries
              ++ [ {| level := ErrorLevel;
                      keyvals := [("msg", "Cannot write response");
                                  ("err", "write: broken pipe")] |} ])).
Proof.
  destruct (write_failure_is_logged
              {| ResponseWriter.status := None; ResponseWriter.written := "";
                 ResponseWriter.failure := Some (mkError "write: broken pipe") |}
              (Sample.post Sample.fullBody) requireRequest (New [])
              Sample.fullBody Sample.plainReview
              (Sample.request ruleResource "plain")
              (AdmissionResponse.new true) _ _ (mkError "write: broken pipe")
              eq_refl ltac:(discriminate) eq_refl eq_refl eq_refl eq_refl
              eq_refl eq_refl) as [w' Hrun].
  exists w'. eexists [_]. exact Hrun.
Defined.

End SampleCoverage.

Section LenientCoverage.
Local Existing Instance Faulty.lenientDecoder.

Lemma decode_failure_skips_the_admission_function_witness :
  serveAdmission ResponseWriter.fresh (Sample.post Faulty.badFieldBody)
    mutatePrometheusRules (New [])
  = serveAdmission ResponseWriter.fresh (Sample.post Faulty.badFieldBody)
      validatePrometheusRules (New []).
Proof.
  exact (decode_failure_skips_the_admission_function ResponseWriter.fresh
           (Sample.post Faulty.badFieldBody) mutatePrometheusRules
           validatePrometheusRules (New []) Faulty.badFieldBody
           (Sample.review (Some (Sample.request ruleResource "plain")))
           Faulty.badFieldError eq_refl eq_refl).
Defined.

Lemma decode_failure_with_a_request_is_answered_witness :
  exists entries,
    serveAdmission ResponseWriter.fresh (Sample.post Faulty.badFieldBody)
      validatePrometheusRules (New [])
    = Returns
        {| ResponseWriter.status := Some 200%Z;
           ResponseWriter.written :=
             lit "{'kind':'AdmissionReview','apiVersion':'admission.k8s.io/v1','response':{'uid':'705ab4f5-6393-11e8-b7cc-42010a800002','allowed':false}}";
           ResponseWriter.failure := None |}
        (New entries).
Proof.
  exact (decode_failure_with_a_request_is_answered ResponseWriter.fresh
           (Sample.post Faulty.badFieldBody) validatePrometheusRules (New [])
           Faulty.badFieldBody
           (Sample.review (Some (Sample.request ruleResource "plain")))
           (Sample.request ruleResource "plain") Faulty.badFieldError
           _ eq_refl ltac:(discriminate) eq_refl eq_refl eq_refl eq_refl
           eq_refl eq_refl).
Defined.

End LenientCoverage.

Section HelperCoverage.
Local Existing Instance Faulty.failingHelper.

Lemma mutate_rejects_when_the_helper_fails_witness :
  exists resp a',
    mutatePrometheusRules Sample.plainReview (New []) = Returns (Some resp) a'
    /\ AdmissionResponse.Allowed resp = false
    /\ Status.Message <$> AdmissionResponse.Result resp
       = Some "Cannot unmarshal rules from spec"
    /\ causesOf resp = [ {| StatusCause.Message := "yaml: unmarshal errors" |} ]
    /\ AdmissionResponse.Patch resp = None
    /\ AdmissionResponse.PatchType resp = None.
Proof.
  exact (mutate_rejects_when_the_helper_fails Sample.plainReview
           (Sample.request ruleResource "plain")
           {| PrometheusRules.Annotations := ∅;
              PrometheusRules.Spec := {| RawExtension.Raw := "groups" |} |}
           [Sample.labelPatch] Faulty.helperError (New [])
           eq_refl eq_refl eq_refl eq_refl).
Defined.

End HelperCoverage.

Section MarshalCoverage.
Local Existing Instance Faulty.failingMarshal.

Lemma marshal_failure_is_an_internal_error_witness :
  exists a',
    serveAdmission ResponseWriter.fresh (Sample.post Sample.fullBody)
      mutatePrometheusRules (New [])
    = Returns
        {| ResponseWriter.status := Some 500%Z;
           ResponseWriter.written :=
             "could not serialize response: json: unsupported value"
             ++ String (Ascii.ascii_of_nat 10) "";
           ResponseWriter.failure := None |}
        a'.
Proof.
  eexists.
  exact (marshal_failure_is_an_internal_error ResponseWriter.fresh
           (Sample.post Sample.fullBody) mutatePrometheusRules (New [])
           Sample.fullBody Sample.plainReview
           (Sample.request ruleResource "plain")
           (mutateDecision (Sample.request ruleResource "plain")) _ ""
           Faulty.marshalError
           eq_refl ltac:(discriminate) eq_refl eq_refl eq_refl eq_refl
           eq_refl eq_refl eq_refl).
Defined.

End MarshalCoverage.

(** ** Fragments that are not JSON *)

Lemma append_String c s t : String c s ++ t = String c (s ++ t).
Proof. reflexivity. Qed.

Lemma parses_first t v :
  Json.parses t v -> exists c rest, t = String c rest /\ startsValue c = true.
Proof.
  destruct 1 as [| | |s Hs|s Hs|w Hw|s vs Hs|w Hw|s ms Hs];
    try (by eexists _, _).
  destruct s as [|c s]; [done|]. exists c, s. split; [done|].
  unfold Json.number in Hs. unfold startsValue.
  destruct (Nat.eqb (Json.code c) 45) eqn:Hminus.
  - apply Nat.eqb_eq in Hminus. rewrite Hminus. by rewrite orb_true_r.
  - destruct (Nat.eqb (Json.code c) 48) eqn:Hzero.
    + apply Nat.eqb_eq in Hzero. unfold Json.is_digit. by rewrite Hzero.
    + apply andb_true_iff in Hs as [-> _]. done.
Qed.

Lemma element_first e v :
  Json.element e v ->
  exists c rest, e = String c rest /\ (Json.is_ws c || startsValue c = true).
Proof.
  destruct 1 as [a t b v Ha Hb Ht].
  destruct a as [|c a].
  - destruct (parses_first t v Ht) as (c & rest & -> & Hc).
    exists c, (rest ++ b). split; [done|]. by rewrite Hc, orb_true_r.
  - exists c, (a ++ t ++ b). split; [done|].
    simpl in Ha. apply andb_true_iff in Ha as [-> _]. done.
Qed.

Lemma elements_first s vs :
  Json.elements s vs ->
  exists c rest, s = String c rest /\ (Json.is_ws c || startsValue c = true).
Proof.
  destruct 1 as [s v Hs|s v r vs Hs Hr].
  - by apply element_first in Hs.
  - apply element_first in Hs as (c & rest & -> & Hc).
    by exists c, (rest ++ "," ++ r).
Qed.

(** No JSON text begins with a bracket and a comma. *)
Lemma leading_comma_is_not_json rest : ~ Json.valid ("[" ++ "," ++ rest).
Proof.
  intros [v Hv].
  remember ("[" ++ "," ++ rest) as text eqn:Htext.
  destruct Hv as [a t b v Ha Hb Ht].
  destruct a as [|c a]; [|by injection Htext as -> _].
  change ("" ++ t ++ b) with (t ++ b) in Htext.
  destruct Ht as [| | |s Hs|s Hs|w Hw|s vs Hs|w Hw|s ms Hs]; try done.
  - destruct s as [|c s]; [done|]. by injection Htext as -> _.
  - rewrite !append_String in Htext. injection Htext as Htext.
    destruct w as [|c w]; [done|]. by injection Htext as -> _.
  - rewrite !append_String in Htext. injection Htext as Htext.
    apply elements_first in Hs as (c & s' & -> & Hc).
    by injection Htext as -> _.
Qed.

Section CarelessRuns.
Local Existing Instance Careless.collaborators.


End CarelessRuns.
